(** * RenderControl: the host side of the emulator's render-control protocol

    A shallow embedding of
    [distrib/android-emugl/host/libs/libOpenglRender/RenderControl.cpp].

    The dispatcher functions ([rcGetGLString], [rcFlushWindowColorBuffer], ...)
    are written as computations over an explicit [World]: the process-wide
    [FrameBuffer] singleton (possibly not created yet), the host GL driver,
    the lazily constructed [GrallocSync] gate and the calling thread's
    [RenderThreadInfo].  A computation either returns, dereferences a null
    pointer, or waits on the gate. *)

From Stdlib Require Import ZArith List Bool Lia.
From Stdlib Require String.
From Stdlib.Strings Require Import Byte.
Import ListNotations.
Local Open Scope Z_scope.

(** ** Machine integers *)

Module CInt.

Definition INT_MAX : Z := 2147483647.
Definition INT_MIN : Z := -2147483648.

(** Conversion to a 32-bit [int] (two's complement wrap-around). *)
Definition to_int (z : Z) : Z := (z + 2147483648) mod 4294967296 - 2147483648.

(** Conversion to [uint32_t]. *)
Definition to_uint32 (z : Z) : Z := z mod 4294967296.

(** Conversion to a 64-bit [size_t]. *)
Definition to_size_t (z : Z) : Z := z mod 18446744073709551616.

End CInt.
Export CInt.

(** ** C strings and caller buffers *)

(** A [cstring] lists the bytes of a C string before its terminator. *)
Definition cstring := list byte.

Definition NUL : byte := x00.
Definition SPACE : byte := x20.

Definition strlen (s : cstring) : Z := Z.of_nat (length s).

(** [strcpy(dst, src)] stores the bytes of [src] and the terminator. *)
Definition strcpy (src : cstring) : list byte := src ++ [NUL].

(** [snprintf(dst, n, ...)] where the formatted text is [text]: nothing is
    stored when [n] is zero, otherwise at most [n - 1] bytes of the text and
    a terminator. *)
Definition snprintf (n : Z) (text : cstring) : list byte :=
  if n =? 0 then [] else firstn (Z.to_nat (n - 1)) text ++ [NUL].

(** The caller's memory after [stored] was written at its start. *)
Definition buffer_after (stored mem : list byte) : list byte :=
  stored ++ skipn (length stored) mem.

(** [t] occurs in [s] as a contiguous run of bytes. *)
Definition substring (t s : cstring) : Prop :=
  exists pre post, s = pre ++ t ++ post.

Fixpoint is_prefix (t s : cstring) : bool :=
  match t, s with
  | [], _ => true
  | a :: t', b :: s' => Byte.eqb a b && is_prefix t' s'
  | _ :: _, [] => false
  end.

(** [strstr(s, t) != NULL]. *)
Fixpoint strstr (s t : cstring) : bool :=
  is_prefix t s ||
  match s with
  | [] => false
  | _ :: s' => strstr s' t
  end.

(** ** Handles and the constants of the EGL and GL headers *)

Definition HandleType := Z.
Definition EGLDisplay := Z.
Definition EGLConfig := Z.
Definition EGLContext := Z.
Definition EGLSurface := Z.

Definition EGL_NO_CONTEXT : EGLContext := 0.
Definition EGL_NONE : Z := 12344.     (* 0x3038 *)
Definition EGL_HEIGHT : Z := 12374.   (* 0x3056 *)
Definition EGL_WIDTH : Z := 12375.    (* 0x3057 *)
Definition GL_EXTENSIONS : Z := 7939. (* 0x1F03 *)

(** ** The collaborators of the dispatcher *)

Record FbConfig := { getEglConfig : EGLConfig }.

Record RenderContext := { getEGLContext : EGLContext; isGL2 : bool }.

Record RenderThreadInfo := { currContext : option RenderContext }.

(** The classes and dispatch tables the file is compiled against
    ([FrameBuffer], [FbConfigList], [RenderContext::create], [s_egl],
    [s_gles1], [s_gles2], [ChecksumCalculatorThreadInfo]) are declared outside
    it; they are taken as an interface.  A method that changes its object
    returns the new object next to its result. *)
Class Platform := {
  FrameBuffer : Type;
  HostGL : Type;
  (* FrameBuffer *)
  getDisplay : FrameBuffer -> EGLDisplay;
  (* fb->getConfigs()->get(i) *)
  getConfig : FrameBuffer -> Z -> option FbConfig;
  (* fb->getConfigs()->getPackInfo(&numConfigs, &numAttribs) *)
  getPackInfo : FrameBuffer -> Z * Z;
  (* fb->getConfigs()->packConfigs(bufferSize, buffer): result, words stored *)
  packConfigs : FrameBuffer -> Z -> bool -> Z * list Z;
  createRenderContext :
    FrameBuffer -> HandleType -> HandleType -> bool -> HandleType * FrameBuffer;
  openColorBuffer : FrameBuffer -> HandleType -> Z * FrameBuffer;
  flushWindowSurfaceColorBuffer : FrameBuffer -> HandleType -> bool * FrameBuffer;
  updateColorBuffer :
    FrameBuffer -> HandleType -> Z -> Z -> Z -> Z -> Z -> Z -> list byte -> FrameBuffer;
  (* s_egl *)
  eglQueryString : HostGL -> EGLDisplay -> Z -> option cstring;
  eglCreatePbufferSurface :
    HostGL -> EGLDisplay -> EGLConfig -> list Z -> EGLSurface * HostGL;
  eglMakeCurrent :
    HostGL -> EGLDisplay -> EGLSurface -> EGLSurface -> EGLContext -> bool * HostGL;
  (* RenderContext::create(display, config, share, isGL2) *)
  RenderContext_create :
    HostGL -> EGLDisplay -> EGLConfig -> EGLContext -> bool -> option RenderContext * HostGL;
  (* s_gles1.glGetString, s_gles2.glGetString *)
  gles1_glGetString : HostGL -> Z -> option cstring;
  gles2_glGetString : HostGL -> Z -> option cstring;
  (* ChecksumCalculatorThreadInfo::getMaxVersionString() *)
  getMaxVersionString : cstring
}.

(** ** The ordering gate *)

(** Modelled from the spec: [android::base::Lock] is declared outside these
    sources; the spec calls it one process-wide mutual-exclusion lock, so it
    is either free or held, taking it while it is held makes the caller wait,
    and releasing it leaves it free. *)
Inductive Lock := Free | Held.

Definition Lock_lock (l : Lock) : option Lock :=
  match l with
  | Free => Some Held
  | Held => None
  end.

Definition Lock_unlock (l : Lock) : Lock := Free.

Record GrallocSync := { mEnabled : bool; mGrallocCbLock : Lock }.

(** ** The world a request runs in *)

Section RenderControl.

Context {P : Platform}.

Record World := {
  (* FrameBuffer::getFB() *)
  theFrameBuffer : option FrameBuffer;
  host : HostGL;
  (* the LazyInstance<GrallocSync>: [None] until its first use *)
  sGrallocSync : option GrallocSync;
  (* RenderThreadInfo::get() of the calling thread *)
  tInfo : option RenderThreadInfo;
  (* emugl_feature_is_enabled(android::featurecontrol::...) *)
  feature_GrallocSync : bool;
  feature_GLPipeChecksum : bool
}.

Definition set_theFrameBuffer (f : option FrameBuffer) (w : World) : World :=
  {| theFrameBuffer := f; host := host w; sGrallocSync := sGrallocSync w;
     tInfo := tInfo w; feature_GrallocSync := feature_GrallocSync w;
     feature_GLPipeChecksum := feature_GLPipeChecksum w |}.

Definition set_host (h : HostGL) (w : World) : World :=
  {| theFrameBuffer := theFrameBuffer w; host := h; sGrallocSync := sGrallocSync w;
     tInfo := tInfo w; feature_GrallocSync := feature_GrallocSync w;
     feature_GLPipeChecksum := feature_GLPipeChecksum w |}.

Definition set_sGrallocSync (s : option GrallocSync) (w : World) : World :=
  {| theFrameBuffer := theFrameBuffer w; host := host w; sGrallocSync := s;
     tInfo := tInfo w; feature_GrallocSync := feature_GrallocSync w;
     feature_GLPipeChecksum := feature_GLPipeChecksum w |}.

Definition set_tInfo (t : option RenderThreadInfo) (w : World) : World :=
  {| theFrameBuffer := theFrameBuffer w; host := host w; sGrallocSync := sGrallocSync w;
     tInfo := t; feature_GrallocSync := feature_GrallocSync w;
     feature_GLPipeChecksum := feature_GLPipeChecksum w |}.

(** How a call ends: it returns a value, it dereferences a null pointer, or
    it waits for the gate.  Each case carries the world reached. *)
Inductive outcome (A : Type) : Type :=
| Returns (a : A) (w : World)
| NullDeref (w : World)
| Waits (w : World).

Arguments Returns {A} a w.
Arguments NullDeref {A} w.
Arguments Waits {A} w.

Definition M (A : Type) : Type := World -> outcome A.

Definition ret {A} (a : A) : M A := fun w => Returns a w.

Definition bind {A B} (m : M A) (k : A -> M B) : M B :=
  fun w =>
    match m w with
    | Returns a w' => k a w'
    | NullDeref w' => NullDeref w'
    | Waits w' => Waits w'
    end.

Definition get {A} (proj : World -> A) : M A := fun w => Returns (proj w) w.

Definition modify (f : World -> World) : M unit := fun w => Returns tt (f w).

(** [p->...] on a pointer that may be null. *)
Definition deref {A} (p : option A) : M A :=
  fun w =>
    match p with
    | Some a => Returns a w
    | None => NullDeref w
    end.

Definition wait {A} : M A := fun w => Waits w.

(** The world a call ends in, however it ends. *)
Definition final_world {A} (o : outcome A) : World :=
  match o with
  | Returns _ w => w
  | NullDeref w => w
  | Waits w => w
  end.

End RenderControl.

Arguments World {P}.
Arguments Returns {P A} a w.
Arguments NullDeref {P A} w.
Arguments Waits {P A} w.

Declare Scope rc_scope.
Delimit Scope rc_scope with rc.
Notation "x <- m ;; k" := (bind m (fun x => k))
  (at level 100, m at next level, right associativity) : rc_scope.
Notation "' pat <- m ;; k" := (bind m (fun x => match x with pat => k end))
  (at level 100, pat pattern, m at next level, right associativity) : rc_scope.
Notation "m ;; k" := (bind m (fun _ => k))
  (at level 100, right associativity) : rc_scope.
Local Open Scope rc_scope.

(** ** The dispatcher *)

Section Dispatcher.

Context {P : Platform}.

(** [FrameBuffer::getFB()]: the singleton, or null before it exists. *)
Definition getFB : M (option FrameBuffer) := get theFrameBuffer.

(** [sGrallocSync.ptr()]: the instance, constructed at its first use.  The
    constructor reads the feature flag once and starts with the lock free. *)
Definition sGrallocSync_ptr : M GrallocSync :=
  s <- get sGrallocSync ;;
  match s with
  | Some g => ret g
  | None =>
      enabled <- get feature_GrallocSync ;;
      let g := {| mEnabled := enabled; mGrallocCbLock := Free |} in
      modify (set_sGrallocSync (Some g)) ;;
      ret g
  end.

(** [void lockCb() { if (mEnabled) mGrallocCbLock.lock(); }] *)
Definition lockCb : M unit :=
  g <- sGrallocSync_ptr ;;
  if mEnabled g then
    match Lock_lock (mGrallocCbLock g) with
    | Some l =>
        modify (set_sGrallocSync (Some {| mEnabled := mEnabled g; mGrallocCbLock := l |}))
    | None => wait
    end
  else ret tt.

(** [void unlockCb() { if (mEnabled) mGrallocCbLock.unlock(); }] *)
Definition unlockCb : M unit :=
  g <- sGrallocSync_ptr ;;
  if mEnabled g then
    modify (set_sGrallocSync
              (Some {| mEnabled := mEnabled g;
                       mGrallocCbLock := Lock_unlock (mGrallocCbLock g) |}))
  else ret tt.

(** The gate is held: its instance exists, is enabled and its lock is taken. *)
Definition gate_held (w : World) : bool :=
  match sGrallocSync w with
  | Some {| mEnabled := true; mGrallocCbLock := Held |} => true
  | _ => false
  end.

Definition rendererVersion : Z := 1.

Definition rcGetRendererVersion : M Z :=
  sGrallocSync_ptr ;;
  ret rendererVersion.

Definition is_null {A} (p : option A) : bool :=
  match p with
  | Some _ => false
  | None => true
  end.

(** The string queries return the [EGLint] result and the bytes they stored
    at the start of [buffer] (none when nothing was written). *)
Definition rcQueryEGLString (name : Z) (buffer : option (list byte)) (bufferSize : Z)
  : M (Z * list byte) :=
  fb <- getFB ;;
  match fb with
  | None => ret (0, [])
  | Some f =>
      str <- get (fun w => eglQueryString (host w) (getDisplay f) name) ;;
      match str with
      | None => ret (0, [])
      | Some s =>
          let len := to_int (strlen s + 1) in
          if is_null buffer || (len >? bufferSize) then ret (to_int (- len), [])
          else ret (len, strcpy s)
      end
  end.

Definition pbuf_attribs : list Z := [EGL_WIDTH; 1; EGL_HEIGHT; 1; EGL_NONE].

Definition create_trivial_context : M RenderContext :=
  fb <- getFB ;;
  f <- deref fb ;;
  cfg <- deref (getConfig f 0) ;;
  let isGL2 := true in
  h <- get host ;;
  let '(cxt, h1) :=
    RenderContext_create h (getDisplay f) (getEglConfig cfg) EGL_NO_CONTEXT isGL2 in
  modify (set_host h1) ;;
  let '(surf, h2) :=
    eglCreatePbufferSurface h1 (getDisplay f) (getEglConfig cfg) pbuf_attribs in
  modify (set_host h2) ;;
  c <- deref cxt ;;
  let '(_, h3) := eglMakeCurrent h2 (getDisplay f) surf surf (getEGLContext c) in
  modify (set_host h3) ;;
  ret c.

(** The first half of [rcGetGLString]: the driver's string and its length
    with the terminator, from the bound context or from a trivial one. *)
Definition rcGetGLString_query (name : Z) : M (option cstring * Z) :=
  t <- get tInfo ;;
  match t with
  | Some {| currContext := Some ctx |} =>
      str <- get (fun w => if isGL2 ctx then gles2_glGetString (host w) name
                           else gles1_glGetString (host w) name) ;;
      match str with
      | Some s => ret (str, to_int (strlen s + 1))
      | None => ret (str, 0)
      end
  | _ =>
      (* No GL context, create one and associate it just for getting
         OpenGL strings. *)
      c <- create_trivial_context ;;
      _ <- deref t ;;
      modify (set_tInfo (Some {| currContext := Some c |})) ;;
      str <- get (fun w => gles2_glGetString (host w) name) ;;
      s <- deref str ;;
      ret (str, to_int (strlen s + 1))
  end.

Definition rcGetGLString (name : Z) (buffer : option (list byte)) (bufferSize : Z)
  : M (Z * list byte) :=
  '(str, len) <- rcGetGLString_query name ;;
  (* We add the maximum supported GL protocol number into GL_EXTENSIONS *)
  isChecksumEnabled <- get feature_GLPipeChecksum ;;
  let glProtocolStr := getMaxVersionString in
  let len :=
    if isChecksumEnabled && (name =? GL_EXTENSIONS) then
      let len := if len =? 0 then 1 else len in
      to_int (len + (strlen glProtocolStr + 1))
    else len in
  if is_null buffer || (len >? bufferSize) then ret (to_int (- len), [])
  else if isChecksumEnabled && (name =? GL_EXTENSIONS) then
    ret (len, snprintf (to_size_t bufferSize)
                (match str with Some s => s | None => [] end
                 ++ glProtocolStr ++ [SPACE]))
  else
    match str with
    | Some s => ret (len, strcpy s)
    | None => ret (0, if bufferSize >=? 1 then [NUL] else [])
    end.

Definition rcGetNumConfigs (p_numAttribs : bool) : M (Z * option Z) :=
  fb <- getFB ;;
  f <- deref fb ;;
  let '(numConfigs, numAttribs) := getPackInfo f in
  ret (numConfigs, if p_numAttribs then Some (to_uint32 numAttribs) else None).

Definition rcGetConfigs (bufSize : Z) (buffer : bool) : M (Z * list Z) :=
  let bufferSize := to_uint32 bufSize in
  fb <- getFB ;;
  f <- deref fb ;;
  ret (packConfigs f bufferSize buffer).

Definition rcCreateContext (config share glVersion : Z) : M HandleType :=
  fb <- getFB ;;
  match fb with
  | None => ret 0
  | Some f =>
      (* To make it consistent with the guest, create GLES2 context when GL
         version==2 or 3 *)
      let '(r, f') :=
        createRenderContext f config share ((glVersion =? 2) || (glVersion =? 3)) in
      modify (set_theFrameBuffer (Some f')) ;;
      ret r
  end.

Definition rcOpenColorBuffer2 (colorbuffer : HandleType) : M Z :=
  fb <- getFB ;;
  match fb with
  | None => ret (-1)
  | Some f =>
      let '(r, f') := openColorBuffer f colorbuffer in
      modify (set_theFrameBuffer (Some f')) ;;
      ret r
  end.

(** Deprecated, kept for compatibility with old system images only. *)
Definition rcOpenColorBuffer (colorbuffer : HandleType) : M unit :=
  rcOpenColorBuffer2 colorbuffer ;;
  ret tt.

Definition rcFlushWindowColorBuffer (windowSurface : HandleType) : M Z :=
  lockCb ;;
  fb <- getFB ;;
  match fb with
  | None => ret (-1)
  | Some f =>
      let '(ok, f') := flushWindowSurfaceColorBuffer f windowSurface in
      modify (set_theFrameBuffer (Some f')) ;;
      if negb ok then ret (-1)
      else
        unlockCb ;;
        ret 0
  end.

Definition rcColorBufferCacheFlush (colorBuffer : HandleType) (postCount forRead : Z)
  : M Z :=
  (* gralloc_lock() on the guest calls rcColorBufferCacheFlush *)
  lockCb ;;
  ret 0.

Definition rcUpdateColorBuffer (colorBuffer : HandleType)
    (x y width height format type : Z) (pixels : list byte) : M Z :=
  fb <- getFB ;;
  match fb with
  | None => ret (-1)
  | Some f =>
      modify (set_theFrameBuffer
                (Some (updateColorBuffer f colorBuffer x y width height format type pixels))) ;;
      unlockCb ;;
      ret 0
  end.

End Dispatcher.

(** ** What the protocol says about the gate *)

Section GateContract.

Context {P : Platform}.

(** Whether the gate serialises at all: the flag its instance was
    constructed with, or will be constructed with at its first use. *)
Definition gate_enabled (w : World) : bool :=
  match sGrallocSync w with
  | Some g => mEnabled g
  | None => feature_GrallocSync w
  end.

Definition gate_lock (w : World) : Lock :=
  match sGrallocSync w with
  | Some g => mGrallocCbLock g
  | None => Free
  end.

(** The world once the caller has acquired the gate: nothing but the gate
    changes, and a disabled gate keeps its lock as it was. *)
Definition gate_taken (w : World) : World :=
  set_sGrallocSync
    (Some {| mEnabled := gate_enabled w;
             mGrallocCbLock := if gate_enabled w then Held else gate_lock w |}) w.

(** The world once the caller has released the gate. *)
Definition gate_released (w : World) : World :=
  set_sGrallocSync
    (Some {| mEnabled := gate_enabled w;
             mGrallocCbLock := if gate_enabled w then Free else gate_lock w |}) w.

(** Two worlds that differ at most in the gate. *)
Definition same_but_gate (w w' : World) : Prop :=
  theFrameBuffer w' = theFrameBuffer w /\
  host w' = host w /\
  tInfo w' = tInfo w /\
  feature_GrallocSync w' = feature_GrallocSync w /\
  feature_GLPipeChecksum w' = feature_GLPipeChecksum w.

End GateContract.

(** ** What the protocol says about contexts and color buffers *)

Section ResourceContract.

Context {P : Platform}.

(** The context kind a GL version hint asks for, as the [isGL2] flag of the
    backend: 2 and 3 ask for the GLES2 family, anything else for GLES1. *)
Definition requested_isGL2 (glVersion : Z) : bool :=
  match glVersion with
  | 2 | 3 => true
  | _ => false
  end.

(** The state effect of opening a color buffer: the backend, when it
    exists, takes one more reference on it; nothing else changes. *)
Definition OpenColorBuffer_effect (colorbuffer : HandleType) (w : World) : World :=
  match theFrameBuffer w with
  | Some f => set_theFrameBuffer (Some (snd (openColorBuffer f colorbuffer))) w
  | None => w
  end.

End ResourceContract.

(** ** What the protocol says about string queries *)

Section StringContract.

Context {P : Platform}.

(** The EGL string a query names: none without a backend, and none when the
    display has no string of that name. *)
Definition eglString (name : Z) (w : World) : option cstring :=
  match theFrameBuffer w with
  | Some f => eglQueryString (host w) (getDisplay f) name
  | None => None
  end.

(** The text of a driver string that may be absent. *)
Definition text_of (str : option cstring) : cstring :=
  match str with
  | Some s => s
  | None => []
  end.

(** The length [rcGetGLString] counts for the string its driver gave. *)
Definition counted (str : option cstring) : Z :=
  match str with
  | Some s => to_int (strlen s + 1)
  | None => 0
  end.

(** No string of the GL drivers, with the protocol token and two more bytes
    appended, is too long for the [int] that [rcGetGLString] counts in. *)
Definition driver_strings_fit : Prop :=
  strlen getMaxVersionString + 2 <= INT_MAX /\
  forall (h : HostGL) (name : Z) (s : cstring),
    gles1_glGetString h name = Some s \/ gles2_glGetString h name = Some s ->
    strlen s + strlen getMaxVersionString + 2 <= INT_MAX.

(** The world [create_trivial_context] leaves when every step succeeds:
    nothing but the host driver changes. *)
Definition trivial_context_bound (f : FrameBuffer) (cfg : FbConfig) (w : World)
  : option RenderContext * World :=
  let dpy := getDisplay f in
  let r1 := RenderContext_create (host w) dpy (getEglConfig cfg) EGL_NO_CONTEXT true in
  let r2 := eglCreatePbufferSurface (snd r1) dpy (getEglConfig cfg) pbuf_attribs in
  match fst r1 with
  | Some c =>
      (Some c,
       set_host (snd (eglMakeCurrent (snd r2) dpy (fst r2) (fst r2) (getEGLContext c))) w)
  | None => (None, set_host (snd r2) w)
  end.

End StringContract.

(** ** A small concrete platform

    A host with one configuration, fixed driver strings and a backend that
    counts the requests it served; it is used to run the dispatcher on
    concrete requests. *)

Module Toy.

Import String.

Definition text (s : String.string) : cstring := String.list_byte_of_string s.
Arguments text s%_string.

Definition EGL_VENDOR : Z := 12371. (* 0x3053 *)
Definition GL_VENDOR : Z := 7936.   (* 0x1F00 *)

Record Backend := { served : Z; references : Z }.

Record Driver := { current : option EGLContext; contexts : Z; surfaces : Z }.

Definition serve (b : Backend) : Backend :=
  {| served := served b + 1; references := references b |}.

Definition glGetString (d : Driver) (name : Z) : option cstring :=
  if name =? GL_EXTENSIONS then Some (text "GL_OES_EGL_image ")
  else if name =? GL_VENDOR then Some (text "Toy")
  else None.

#[local] Instance platform : Platform := {|
  FrameBuffer := Backend;
  HostGL := Driver;
  getDisplay := fun _ => 1;
  getConfig := fun _ i => if i =? 0 then Some {| getEglConfig := 7 |} else None;
  getPackInfo := fun _ => (1, 3);
  packConfigs := fun _ size nonnull =>
    if negb nonnull || (size <? 12) then (-12, []) else (12, [1; 2; 3]);
  createRenderContext := fun b _ _ gl2 => ((if gl2 then 2 else 1), serve b);
  openColorBuffer := fun b _ =>
    (0, {| served := served b + 1; references := references b + 1 |});
  flushWindowSurfaceColorBuffer := fun b surf => (negb (surf =? 0), serve b);
  updateColorBuffer := fun b _ _ _ _ _ _ _ _ => serve b;
  eglQueryString := fun _ _ name =>
    if name =? EGL_VENDOR then Some (text "Toy") else None;
  eglCreatePbufferSurface := fun d _ _ _ =>
    (surfaces d + 1,
     {| current := current d; contexts := contexts d; surfaces := surfaces d + 1 |});
  eglMakeCurrent := fun d _ _ _ ctx =>
    (true, {| current := Some ctx; contexts := contexts d; surfaces := surfaces d |});
  RenderContext_create := fun d _ _ _ gl2 =>
    (Some {| getEGLContext := contexts d + 1; isGL2 := gl2 |},
     {| current := current d; contexts := contexts d + 1; surfaces := surfaces d |});
  gles1_glGetString := glGetString;
  gles2_glGetString := glGetString;
  getMaxVersionString := text "ANDROID_EMU_CHECKSUM_HELPER_v1"
|}.

Definition driver0 : Driver := {| current := None; contexts := 0; surfaces := 0 |}.

Definition backend0 : Backend := {| served := 0; references := 0 |}.

(** A freshly started process: nothing used the gate yet and the calling
    thread has its [RenderThreadInfo] but no context. *)
Definition world (fb : option Backend) (grallocSync checksum : bool) : World :=
  {| theFrameBuffer := fb; host := driver0; sGrallocSync := None;
     tInfo := Some {| currContext := None |};
     feature_GrallocSync := grallocSync; feature_GLPipeChecksum := checksum |}.

(** The same process once the trivial context was made and bound. *)
Definition context1 : RenderContext := {| getEGLContext := 1; isGL2 := true |}.

Definition world_bound (fb : option Backend) (grallocSync checksum : bool) : World :=
  {| theFrameBuffer := fb;
     host := {| current := Some 1; contexts := 1; surfaces := 1 |};
     sGrallocSync := None;
     tInfo := Some {| currContext := Some context1 |};
     feature_GrallocSync := grallocSync; feature_GLPipeChecksum := checksum |}.

(** A thread that never registered a [RenderThreadInfo]. *)
Definition world_no_tInfo (fb : option Backend) : World :=
  set_tInfo None (world fb false false).

End Toy.

(** ** The rest of the dispatcher *)

Definition EGL_FALSE : Z := 0.
Definition EGL_TRUE : Z := 1.

(** The remaining methods of [FrameBuffer] and the [FB_*] parameter names of
    [rcGetFBParam] are declared outside the file as well.  A method that
    works on resources may reach the driver and the calling thread's
    [RenderThreadInfo] besides its own object, so it takes and returns all
    three; the gate is a static of the file and out of its reach.  The
    [FB_*] names are labels of one [switch], hence pairwise distinct. *)
Class PlatformRest {P : Platform} := {
  (* fb->getCaps().eglMajor, fb->getCaps().eglMinor *)
  getCaps_eglMajor : FrameBuffer -> Z;
  getCaps_eglMinor : FrameBuffer -> Z;
  (* fb->getConfigs()->chooseConfig(attribs, configs, configs_size) *)
  chooseConfig : FrameBuffer -> list Z -> bool -> Z -> Z * list Z;
  getWidth : FrameBuffer -> Z;
  getHeight : FrameBuffer -> Z;
  DestroyRenderContext :
    FrameBuffer * HostGL * option RenderThreadInfo -> HandleType ->
    FrameBuffer * HostGL * option RenderThreadInfo;
  createWindowSurface :
    FrameBuffer * HostGL * option RenderThreadInfo -> Z -> Z -> Z ->
    HandleType * (FrameBuffer * HostGL * option RenderThreadInfo);
  DestroyWindowSurface :
    FrameBuffer * HostGL * option RenderThreadInfo -> HandleType ->
    FrameBuffer * HostGL * option RenderThreadInfo;
  createColorBuffer :
    FrameBuffer * HostGL * option RenderThreadInfo -> Z -> Z -> Z ->
    HandleType * (FrameBuffer * HostGL * option RenderThreadInfo);
  closeColorBuffer :
    FrameBuffer * HostGL * option RenderThreadInfo -> HandleType ->
    FrameBuffer * HostGL * option RenderThreadInfo;
  setWindowSurfaceColorBuffer :
    FrameBuffer * HostGL * option RenderThreadInfo -> HandleType -> HandleType ->
    FrameBuffer * HostGL * option RenderThreadInfo;
  bindContext :
    FrameBuffer * HostGL * option RenderThreadInfo ->
    HandleType -> HandleType -> HandleType ->
    bool * (FrameBuffer * HostGL * option RenderThreadInfo);
  post :
    FrameBuffer * HostGL * option RenderThreadInfo -> HandleType ->
    FrameBuffer * HostGL * option RenderThreadInfo;
  bindColorBufferToTexture :
    FrameBuffer * HostGL * option RenderThreadInfo -> HandleType ->
    FrameBuffer * HostGL * option RenderThreadInfo;
  bindColorBufferToRenderbuffer :
    FrameBuffer * HostGL * option RenderThreadInfo -> HandleType ->
    FrameBuffer * HostGL * option RenderThreadInfo;
  (* the pixels stored through [pixels], and the objects afterwards *)
  readColorBuffer :
    FrameBuffer * HostGL * option RenderThreadInfo ->
    HandleType -> Z -> Z -> Z -> Z -> Z -> Z ->
    list byte * (FrameBuffer * HostGL * option RenderThreadInfo);
  createClientImage :
    FrameBuffer * HostGL * option RenderThreadInfo -> HandleType -> Z -> Z ->
    HandleType * (FrameBuffer * HostGL * option RenderThreadInfo);
  destroyClientImage :
    FrameBuffer * HostGL * option RenderThreadInfo -> HandleType ->
    Z * (FrameBuffer * HostGL * option RenderThreadInfo);
  FB_WIDTH : Z;
  FB_HEIGHT : Z;
  FB_XDPI : Z;
  FB_YDPI : Z;
  FB_FPS : Z;
  FB_MIN_SWAP_INTERVAL : Z;
  FB_MAX_SWAP_INTERVAL : Z;
  FB_labels_distinct :
    NoDup [FB_WIDTH; FB_HEIGHT; FB_XDPI; FB_YDPI; FB_FPS;
           FB_MIN_SWAP_INTERVAL; FB_MAX_SWAP_INTERVAL]
}.

Section DispatcherRest.

Context {P : Platform} {R : PlatformRest}.

(** [fb->method(...)] for a method that works on resources: it runs on the
    backend, the driver and the thread info, and leaves its changes there. *)
Definition on_backend {A} (f : FrameBuffer)
    (method : FrameBuffer * HostGL * option RenderThreadInfo ->
              A * (FrameBuffer * HostGL * option RenderThreadInfo)) : M A :=
  fun w =>
    let '(a, (f', h', t')) := method (f, host w, tInfo w) in
    Returns a (set_tInfo t' (set_host h' (set_theFrameBuffer (Some f') w))).

(** The out-parameters [major] and [minor] are given by whether the pointer
    is non-null; the result carries what was stored through each. *)
Definition rcGetEGLVersion (major minor : bool) : M (Z * option Z * option Z) :=
  fb <- getFB ;;
  match fb with
  | None => ret (EGL_FALSE, None, None)
  | Some f =>
      _ <- deref (if major then Some tt else None) ;;
      _ <- deref (if minor then Some tt else None) ;;
      ret (EGL_TRUE, Some (to_int (getCaps_eglMajor f)), Some (to_int (getCaps_eglMinor f)))
  end.

Definition rcChooseConfig (attribs : list Z) (attribs_size : Z)
    (configs : bool) (configs_size : Z) : M (Z * list Z) :=
  fb <- getFB ;;
  match fb with
  | None => ret (0, [])
  | Some f =>
      if attribs_size =? 0 then ret (0, [])
      else ret (chooseConfig f attribs configs (to_int configs_size))
  end.

Definition rcGetFBParam (param : Z) : M Z :=
  fb <- getFB ;;
  match fb with
  | None => ret 0
  | Some f =>
      let ret0 := 0 in
      ret (if param =? FB_WIDTH then getWidth f
           else if param =? FB_HEIGHT then getHeight f
           else if param =? FB_XDPI then 72 (* XXX: should be implemented *)
           else if param =? FB_YDPI then 72 (* XXX: should be implemented *)
           else if param =? FB_FPS then 60
           else if param =? FB_MIN_SWAP_INTERVAL then 1 (* XXX: should be implemented *)
           else if param =? FB_MAX_SWAP_INTERVAL then 1 (* XXX: should be implemented *)
           else ret0)
  end.

Definition rcDestroyContext (context : HandleType) : M unit :=
  fb <- getFB ;;
  match fb with
  | None => ret tt
  | Some f => on_backend f (fun o => (tt, DestroyRenderContext o context))
  end.

Definition rcCreateWindowSurface (config width height : Z) : M HandleType :=
  fb <- getFB ;;
  match fb with
  | None => ret 0
  | Some f => on_backend f (fun o => createWindowSurface o config width height)
  end.

Definition rcDestroyWindowSurface (windowSurface : HandleType) : M unit :=
  fb <- getFB ;;
  match fb with
  | None => ret tt
  | Some f => on_backend f (fun o => (tt, DestroyWindowSurface o windowSurface))
  end.

Definition rcCreateColorBuffer (width height internalFormat : Z) : M HandleType :=
  fb <- getFB ;;
  match fb with
  | None => ret 0
  | Some f => on_backend f (fun o => createColorBuffer o width height internalFormat)
  end.

Definition rcCloseColorBuffer (colorbuffer : HandleType) : M unit :=
  fb <- getFB ;;
  match fb with
  | None => ret tt
  | Some f => on_backend f (fun o => (tt, closeColorBuffer o colorbuffer))
  end.

Definition rcSetWindowColorBuffer (windowSurface colorBuffer : HandleType) : M unit :=
  fb <- getFB ;;
  match fb with
  | None => ret tt
  | Some f =>
      on_backend f (fun o => (tt, setWindowSurfaceColorBuffer o windowSurface colorBuffer))
  end.

Definition rcMakeCurrent (context drawSurf readSurf : HandleType) : M Z :=
  fb <- getFB ;;
  match fb with
  | None => ret EGL_FALSE
  | Some f =>
      r <- on_backend f (fun o => bindContext o context drawSurf readSurf) ;;
      ret (if r : bool then EGL_TRUE else EGL_FALSE)
  end.

Definition rcFBPost (colorBuffer : HandleType) : M unit :=
  fb <- getFB ;;
  match fb with
  | None => ret tt
  | Some f => on_backend f (fun o => (tt, post o colorBuffer))
  end.

Definition rcFBSetSwapInterval (interval : Z) : M unit :=
  (* XXX: TBD - should be implemented *)
  ret tt.

Definition rcBindTexture (colorBuffer : HandleType) : M unit :=
  fb <- getFB ;;
  match fb with
  | None => ret tt
  | Some f => on_backend f (fun o => (tt, bindColorBufferToTexture o colorBuffer))
  end.

Definition rcBindRenderbuffer (colorBuffer : HandleType) : M unit :=
  fb <- getFB ;;
  match fb with
  | None => ret tt
  | Some f => on_backend f (fun o => (tt, bindColorBufferToRenderbuffer o colorBuffer))
  end.

(** The result is what was stored through [pixels]. *)
Definition rcReadColorBuffer (colorBuffer : HandleType)
    (x y width height format type : Z) : M (list byte) :=
  fb <- getFB ;;
  match fb with
  | None => ret []
  | Some f =>
      on_backend f (fun o => readColorBuffer o colorBuffer x y width height format type)
  end.

Definition rcCreateClientImage (context : HandleType) (target buffer : Z) : M HandleType :=
  fb <- getFB ;;
  match fb with
  | None => ret 0
  | Some f => on_backend f (fun o => createClientImage o context target buffer)
  end.

Definition rcDestroyClientImage (image : HandleType) : M Z :=
  fb <- getFB ;;
  match fb with
  | None => ret 0
  | Some f => on_backend f (fun o => destroyClientImage o image)
  end.

(** A call ends by returning. *)
Definition returns {A} (o : outcome A) : bool :=
  match o with
  | Returns _ _ => true
  | _ => false
  end.

(** Two worlds with the same gate and the same feature flags. *)
Definition same_gate (w w' : World) : Prop :=
  sGrallocSync w' = sGrallocSync w /\
  feature_GrallocSync w' = feature_GrallocSync w /\
  feature_GLPipeChecksum w' = feature_GLPipeChecksum w.

(** A guarded operation: in every world it returns, never touching the
    gate or the feature flags, and while the backend does not exist it
    returns [neutral] and changes nothing. *)
Definition guarded {A} (op : M A) (neutral : A) : Prop :=
  forall w : World,
    (exists a w', op w = Returns a w' /\ same_gate w w') /\
    (theFrameBuffer w = None -> op w = Returns neutral w).

(** The world with the [GrallocSync] feature flag set to [b]. *)
Definition with_feature_GrallocSync (b : bool) (w : World) : World :=
  {| theFrameBuffer := theFrameBuffer w; host := host w; sGrallocSync := sGrallocSync w;
     tInfo := tInfo w; feature_GrallocSync := b;
     feature_GLPipeChecksum := feature_GLPipeChecksum w |}.

(** The same ending in the world changed by [g]. *)
Definition in_world {A} (g : World -> World) (o : outcome A) : outcome A :=
  match o with
  | Returns a w => Returns a (g w)
  | NullDeref w => NullDeref (g w)
  | Waits w => Waits (g w)
  end.

End DispatcherRest.

(** ** The concrete platform, continued *)

Module ToyRest.

Import Toy.
#[local] Existing Instance Toy.platform.

Definition Objects : Type := Backend * Driver * option RenderThreadInfo.

Definition served_by (o : Objects) : Objects :=
  let '(b, d, t) := o in (serve b, d, t).

(** Binding context 0 fails; binding another makes it the thread's current
    context in the driver and in the thread info. *)
Definition bind (o : Objects) (context : HandleType) : bool * Objects :=
  let '(b, d, t) := o in
  if context =? 0 then (false, (serve b, d, t))
  else
    (true,
     (serve b,
      {| current := Some context; contexts := contexts d; surfaces := surfaces d |},
      match t with
      | Some _ =>
          Some {| currContext := Some {| getEGLContext := context; isGL2 := true |} |}
      | None => None
      end)).

Lemma labels_distinct : NoDup [1; 2; 3; 4; 5; 6; 7].
Proof. repeat constructor; cbn; intuition discriminate. Qed.

#[local] Instance rest : @PlatformRest Toy.platform :=
  @Build_PlatformRest Toy.platform
    (* getCaps_eglMajor *)
    (fun _ => 1)
    (* getCaps_eglMinor *)
    (fun _ => 4)
    (* chooseConfig *)
    (fun _ _ configs size =>
       if negb configs || (size <? 1) then (1, []) else (1, [7]))
    (* getWidth *)
    (fun _ => 320)
    (* getHeight *)
    (fun _ => 480)
    (* DestroyRenderContext *)
    (fun (o : Objects) _ => served_by o)
    (* createWindowSurface *)
    (fun (o : Objects) _ _ _ => (served (fst (fst o)) + 1, served_by o))
    (* DestroyWindowSurface *)
    (fun (o : Objects) _ => served_by o)
    (* createColorBuffer *)
    (fun (o : Objects) _ _ _ => (served (fst (fst o)) + 1, served_by o))
    (* closeColorBuffer *)
    (fun (o : Objects) _ => served_by o)
    (* setWindowSurfaceColorBuffer *)
    (fun (o : Objects) _ _ => served_by o)
    (* bindContext *)
    (fun (o : Objects) context _ _ => bind o context)
    (* post *)
    (fun (o : Objects) _ => served_by o)
    (* bindColorBufferToTexture *)
    (fun (o : Objects) _ => served_by o)
    (* bindColorBufferToRenderbuffer *)
    (fun (o : Objects) _ => served_by o)
    (* readColorBuffer *)
    (fun (o : Objects) _ _ _ width height _ _ =>
       (repeat x00 (Z.to_nat (4 * width * height)), served_by o))
    (* createClientImage *)
    (fun (o : Objects) _ _ _ => (served (fst (fst o)) + 1, served_by o))
    (* destroyClientImage *)
    (fun (o : Objects) _ => (1, served_by o))
    (* FB_WIDTH *)
    1
    (* FB_HEIGHT *)
    2
    (* FB_XDPI *)
    3
    (* FB_YDPI *)
    4
    (* FB_FPS *)
    5
    (* FB_MIN_SWAP_INTERVAL *)
    6
    (* FB_MAX_SWAP_INTERVAL *)
    7
    (* FB_labels_distinct *)
    labels_distinct.

End ToyRest.

(** ** The I/O resources of the goldfish devices

    [include/hw/acpi/goldfish_defs.h]: an I/O memory window and an interrupt
    line for each Android-specific virtual device. *)

Module Goldfish.

(* goldfish battery *)
Definition GOLDFISH_BATTERY_IOMEM_BASE : Z := 0xff010000.
Definition GOLDFISH_BATTERY_IOMEM_SIZE : Z := 0x00001000.
Definition GOLDFISH_BATTERY_IRQ : Z := 16.

(* goldfish events *)
Definition GOLDFISH_EVENTS_IOMEM_BASE : Z := 0xff011000.
Definition GOLDFISH_EVENTS_IOMEM_SIZE : Z := 0x00001000.
Definition GOLDFISH_EVENTS_IRQ : Z := 17.

(* android pipe *)
Definition GOLDFISH_PIPE_IOMEM_BASE : Z := 0xff001000.
Definition GOLDFISH_PIPE_IOMEM_SIZE : Z := 0x00002000.
Definition GOLDFISH_PIPE_IRQ : Z := 18.

(* goldfish framebuffer *)
Definition GOLDFISH_FB_IOMEM_BASE : Z := 0xff012000.
Definition GOLDFISH_FB_IOMEM_SIZE : Z := 0x00000100.
Definition GOLDFISH_FB_IRQ : Z := 19.

(* goldfish audio *)
Definition GOLDFISH_AUDIO_IOMEM_BASE : Z := 0xff013000.
Definition GOLDFISH_AUDIO_IOMEM_SIZE : Z := 0x00000100.
Definition GOLDFISH_AUDIO_IRQ : Z := 20.

(* goldfish sync *)
Definition GOLDFISH_SYNC_IOMEM_BASE : Z := 0xff014000.
Definition GOLDFISH_SYNC_IOMEM_SIZE : Z := 0x00002000.
Definition GOLDFISH_SYNC_IRQ : Z := 21.

(* goldfish rtc *)
Definition GOLDFISH_RTC_IOMEM_BASE : Z := 0xff016000.
Definition GOLDFISH_RTC_IOMEM_SIZE : Z := 0x00001000.
Definition GOLDFISH_RTC_IRQ : Z := 22.

(* goldfish rotary *)
Definition GOLDFISH_ROTARY_IOMEM_BASE : Z := 0xff017000.
Definition GOLDFISH_ROTARY_IOMEM_SIZE : Z := 0x00001000.
Definition GOLDFISH_ROTARY_IRQ : Z := 23.

(* goldfish external display framebuffer *)
Definition GOLDFISH_FBEXT_IOMEM_BASE : Z := 0xff018000.
Definition GOLDFISH_FBEXT_IOMEM_SIZE : Z := 0x00000100.
Definition GOLDFISH_FBEXT_IRQ : Z := 19.

Inductive Device :=
| BATTERY | EVENTS | PIPE | FB | AUDIO | SYNC | RTC | ROTARY | FBEXT.

Definition devices : list Device :=
  [BATTERY; EVENTS; PIPE; FB; AUDIO; SYNC; RTC; ROTARY; FBEXT].

Definition iomem_base (d : Device) : Z :=
  match d with
  | BATTERY => GOLDFISH_BATTERY_IOMEM_BASE
  | EVENTS => GOLDFISH_EVENTS_IOMEM_BASE
  | PIPE => GOLDFISH_PIPE_IOMEM_BASE
  | FB => GOLDFISH_FB_IOMEM_BASE
  | AUDIO => GOLDFISH_AUDIO_IOMEM_BASE
  | SYNC => GOLDFISH_SYNC_IOMEM_BASE
  | RTC => GOLDFISH_RTC_IOMEM_BASE
  | ROTARY => GOLDFISH_ROTARY_IOMEM_BASE
  | FBEXT => GOLDFISH_FBEXT_IOMEM_BASE
  end.

Definition iomem_size (d : Device) : Z :=
  match d with
  | BATTERY => GOLDFISH_BATTERY_IOMEM_SIZE
  | EVENTS => GOLDFISH_EVENTS_IOMEM_SIZE
  | PIPE => GOLDFISH_PIPE_IOMEM_SIZE
  | FB => GOLDFISH_FB_IOMEM_SIZE
  | AUDIO => GOLDFISH_AUDIO_IOMEM_SIZE
  | SYNC => GOLDFISH_SYNC_IOMEM_SIZE
  | RTC => GOLDFISH_RTC_IOMEM_SIZE
  | ROTARY => GOLDFISH_ROTARY_IOMEM_SIZE
  | FBEXT => GOLDFISH_FBEXT_IOMEM_SIZE
  end.

Definition irq (d : Device) : Z :=
  match d with
  | BATTERY => GOLDFISH_BATTERY_IRQ
  | EVENTS => GOLDFISH_EVENTS_IRQ
  | PIPE => GOLDFISH_PIPE_IRQ
  | FB => GOLDFISH_FB_IRQ
  | AUDIO => GOLDFISH_AUDIO_IRQ
  | SYNC => GOLDFISH_SYNC_IRQ
  | RTC => GOLDFISH_RTC_IRQ
  | ROTARY => GOLDFISH_ROTARY_IRQ
  | FBEXT => GOLDFISH_FBEXT_IRQ
  end.

(** The address [a] falls in the I/O memory window of [d]. *)
Definition decodes (d : Device) (a : Z) : bool :=
  (iomem_base d <=? a) && (a <? iomem_base d + iomem_size d).

End Goldfish.

(** ** The extension list and where its string comes from *)



Section ExtensionContract.

Context {P : Platform}.


End ExtensionContract.

(** ** A host whose GL drivers report a given extension string

    The host state is the string both drivers return for [GL_EXTENSIONS]
    (or none); they have no other string.  The backend has nothing to do. *)

Module Reported.

Import String.StringSyntax.

#[local] Instance platform : Platform := {|
  FrameBuffer := unit;
  HostGL := option cstring;
  getDisplay := fun _ => 1;
  getConfig := fun _ i => if i =? 0 then Some {| getEglConfig := 7 |} else None;
  getPackInfo := fun _ => (1, 3);
  packConfigs := fun _ _ _ => (0, []);
  createRenderContext := fun f _ _ _ => (1, f);
  openColorBuffer := fun f _ => (0, f);
  flushWindowSurfaceColorBuffer := fun f _ => (true, f);
  updateColorBuffer := fun f _ _ _ _ _ _ _ _ => f;
  eglQueryString := fun _ _ _ => None;
  eglCreatePbufferSurface := fun h _ _ _ => (1, h);
  eglMakeCurrent := fun h _ _ _ _ => (true, h);
  RenderContext_create := fun h _ _ _ gl2 =>
    (Some {| getEGLContext := 1; isGL2 := gl2 |}, h);
  gles1_glGetString := fun h name => if name =? GL_EXTENSIONS then h else None;
  gles2_glGetString := fun h name => if name =? GL_EXTENSIONS then h else None;
  getMaxVersionString := Toy.text "ANDROID_EMU_CHECKSUM_HELPER_v1"
|}.

(** A thread with a current GLES2 context on a host that reports
    [extensions]. *)
Definition world (extensions : option cstring) (checksum : bool) : World :=
  {| theFrameBuffer := Some tt; host := extensions; sGrallocSync := None;
     tInfo := Some {| currContext := Some {| getEGLContext := 1; isGL2 := true |} |};
     feature_GrallocSync := false; feature_GLPipeChecksum := checksum |}.

End Reported.

(** * Properties *)

(** ** Integer conversions and C strings *)

Lemma to_int_small z : INT_MIN <= z <= INT_MAX -> to_int z = z.
Proof.
  unfold to_int, INT_MIN, INT_MAX. intros H.
  rewrite Z.mod_small by lia. lia.
Qed.

Lemma to_int_range z : INT_MIN <= to_int z <= INT_MAX.
Proof.
  unfold to_int, INT_MIN, INT_MAX.
  pose proof (Z.mod_pos_bound (z + 2147483648) 4294967296 eq_refl). lia.
Qed.


Lemma strlen_nonneg s : 0 <= strlen s.
Proof. unfold strlen. lia. Qed.

Lemma strlen_app s t : strlen (s ++ t) = strlen s + strlen t.
Proof. unfold strlen. rewrite length_app. lia. Qed.

Lemma is_prefix_spec t : forall s, is_prefix t s = true <-> exists post, s = t ++ post.
Proof.
  induction t as [|a t IH]; intros s; simpl.
  - split; [intros _; now exists s | reflexivity].
  - destruct s as [|b s].
    + split; [discriminate | intros [post H]; discriminate].
    + rewrite andb_true_iff, IH. split.
      * intros [Hab [post ->]]. apply Byte.byte_dec_bl in Hab. subst b. now exists post.
      * intros [post H]. injection H as -> ->. split; [apply Byte.byte_dec_lb; reflexivity | now exists post].
Qed.

Lemma strstr_spec t : forall s, strstr s t = true <-> substring t s.
Proof.
  induction s as [|b s IH].
  - simpl. rewrite orb_false_r, is_prefix_spec. split.
    + intros [post H]. now exists [], post.
    + intros [pre [post H]]. destruct pre; simpl in H.
      * now exists post.
      * discriminate.
  - cbn [strstr]. rewrite orb_true_iff, is_prefix_spec, IH. split.
    + intros [[post H] | [pre [post H]]].
      * now exists [], post.
      * exists (b :: pre), post. simpl. now rewrite H.
    + intros [pre [post H]]. destruct pre as [|c pre]; simpl in H.
      * left. now exists post.
      * right. injection H as _ H. now exists pre, post.
Qed.

(** ** The ordering gate *)

Section GateFacts.

Context {P : Platform}.

Ltac world_cases w :=
  destruct w as [fb h [[[|] [|]]|] t [|] c]; try reflexivity.

Lemma lockCb_outcome (w : World) :
  lockCb w = if gate_held w then Waits w else Returns tt (gate_taken w).
Proof. world_cases w. Qed.

Lemma unlockCb_outcome (w : World) :
  unlockCb w = Returns tt (gate_released w).
Proof. world_cases w. Qed.

Lemma gate_taken_same_but_gate (w : World) : same_but_gate w (gate_taken w).
Proof. unfold same_but_gate. now destruct w. Qed.

Lemma gate_released_same_but_gate (w : World) : same_but_gate w (gate_released w).
Proof. unfold same_but_gate. now destruct w. Qed.

Lemma gate_held_taken (w : World) : gate_held (gate_taken w) = gate_enabled w.
Proof. world_cases w. Qed.

Lemma gate_held_released (w : World) : gate_held (gate_released w) = false.
Proof. world_cases w. Qed.

(** Every path of [rcFlushWindowColorBuffer]. *)
Lemma rcFlushWindowColorBuffer_outcome (windowSurface : HandleType) (w : World) :
  rcFlushWindowColorBuffer windowSurface w =
    if gate_held w then Waits w
    else
      match theFrameBuffer w with
      | None => Returns (-1) (gate_taken w)
      | Some f =>
          let w1 := set_theFrameBuffer
                      (Some (snd (flushWindowSurfaceColorBuffer f windowSurface)))
                      (gate_taken w) in
          if fst (flushWindowSurfaceColorBuffer f windowSurface)
          then Returns 0 (gate_released w1)
          else Returns (-1) w1
      end.
Proof.
  unfold rcFlushWindowColorBuffer, bind at 1. rewrite lockCb_outcome.
  destruct (gate_held w); [reflexivity|].
  unfold bind, getFB, get.
  assert (Hfb : theFrameBuffer (gate_taken w) = theFrameBuffer w) by now destruct w.
  rewrite Hfb. destruct (theFrameBuffer w) as [f|]; [|reflexivity].
  destruct (flushWindowSurfaceColorBuffer f windowSurface) as [[|] f'];
    unfold modify; cbn [fst snd negb]; [|reflexivity].
  now rewrite unlockCb_outcome.
Qed.

(** Every path of [rcUpdateColorBuffer]. *)
Lemma rcUpdateColorBuffer_outcome (colorBuffer : HandleType)
    (x y width height format type : Z) (pixels : list byte) (w : World) :
  rcUpdateColorBuffer colorBuffer x y width height format type pixels w =
    match theFrameBuffer w with
    | None => Returns (-1) w
    | Some f =>
        Returns 0
          (gate_released
             (set_theFrameBuffer
                (Some (updateColorBuffer f colorBuffer x y width height format type pixels))
                w))
    end.
Proof.
  unfold rcUpdateColorBuffer, bind, getFB, get.
  destruct (theFrameBuffer w) as [f|]; [|reflexivity].
  unfold modify. now rewrite unlockCb_outcome.
Qed.

(** A flush that succeeds does not leave the gate held. *)
Lemma rcFlushWindowColorBuffer_success_releases (windowSurface : HandleType) (w w' : World) :
  rcFlushWindowColorBuffer windowSurface w = Returns 0 w' -> gate_held w' = false.
Proof.
  rewrite rcFlushWindowColorBuffer_outcome.
  destruct (gate_held w); [discriminate|].
  destruct (theFrameBuffer w) as [f|]; [|discriminate].
  cbv zeta. destruct (fst _); [|discriminate].
  intros H. injection H as <-. apply gate_held_released.
Qed.

(** C1 (defect).  [rcFlushWindowColorBuffer] is meant to take the gate, flush
    and release the gate on every path.  With the gate enabled and the
    backend absent it returns -1 from the early [return] and the gate is
    still held when it is back. *)
Theorem rcFlushWindowColorBuffer_absent_backend_keeps_gate :
  forall (windowSurface : HandleType) (h : HostGL)
         (t : option RenderThreadInfo) (checksum : bool),
    let w := {| theFrameBuffer := None; host := h; sGrallocSync := None; tInfo := t;
                feature_GrallocSync := true; feature_GLPipeChecksum := checksum |} in
    rcFlushWindowColorBuffer windowSurface w = Returns (-1) (gate_taken w) /\
    gate_held w = false /\
    gate_held (gate_taken w) = true.
Proof.
  intros windowSurface h t checksum w.
  rewrite rcFlushWindowColorBuffer_outcome. repeat split.
Qed.

(** C2 (defect).  [rcUpdateColorBuffer] is meant to release the gate that the
    preceding [rcColorBufferCacheFlush] took, on every return path.  With
    the gate enabled and the backend absent the pair returns -1 and the gate
    taken by the first call is still held after the second. *)
Theorem rcUpdateColorBuffer_absent_backend_keeps_gate :
  forall (colorBuffer : HandleType) (postCount forRead x y width height format type : Z)
         (pixels : list byte) (h : HostGL) (t : option RenderThreadInfo) (checksum : bool),
    let w := {| theFrameBuffer := None; host := h; sGrallocSync := None; tInfo := t;
                feature_GrallocSync := true; feature_GLPipeChecksum := checksum |} in
    rcColorBufferCacheFlush colorBuffer postCount forRead w = Returns 0 (gate_taken w) /\
    rcUpdateColorBuffer colorBuffer x y width height format type pixels (gate_taken w)
      = Returns (-1) (gate_taken w) /\
    gate_held (gate_taken w) = true.
Proof.
  intros colorBuffer postCount forRead x y width height format type pixels h t checksum w.
  rewrite rcUpdateColorBuffer_outcome. repeat split.
Qed.

(** C9.  [rcColorBufferCacheFlush] returns 0 and only acquires the gate: the
    call waits while the gate is held, otherwise it returns 0 in a world
    that differs from the one it found at most in the gate, which is then
    held exactly when the gate is enabled; the backend and the host driver
    are untouched, and [postCount] and [forRead] play no part. *)
Theorem rcColorBufferCacheFlush_only_takes_gate :
  forall (colorBuffer : HandleType) (postCount forRead : Z) (w : World),
    rcColorBufferCacheFlush colorBuffer postCount forRead w
      = (if gate_held w then Waits w else Returns 0 (gate_taken w)) /\
    same_but_gate w (gate_taken w) /\
    gate_held (gate_taken w) = gate_enabled w /\
    (forall postCount' forRead' : Z,
        rcColorBufferCacheFlush colorBuffer postCount' forRead' w
          = rcColorBufferCacheFlush colorBuffer postCount forRead w).
Proof.
  intros colorBuffer postCount forRead w. repeat split; try now destruct w.
  - unfold rcColorBufferCacheFlush, bind. rewrite lockCb_outcome.
    now destruct (gate_held w).
  - apply gate_held_taken.
Qed.

End GateFacts.

(** ** Configurations, contexts and color buffers *)

Section ResourceFacts.

Context {P : Platform}.

(** C3 (defect).  [rcGetNumConfigs] and [rcGetConfigs] are meant to answer
    with a neutral value while the backend does not exist.  Both call
    through [FrameBuffer::getFB()] unchecked: with the backend absent each
    dereferences the null pointer. *)
Theorem rcGetNumConfigs_rcGetConfigs_absent_backend :
  forall (p_numAttribs : bool) (bufSize : Z) (buffer : bool) (w : World),
    let w0 := set_theFrameBuffer None w in
    rcGetNumConfigs p_numAttribs w0 = NullDeref w0 /\
    rcGetConfigs bufSize buffer w0 = NullDeref w0.
Proof. intros. split; reflexivity. Qed.

(** With a backend both report what its configuration list packs. *)
Lemma rcGetNumConfigs_present (p_numAttribs : bool) (w : World) (f : FrameBuffer) :
  theFrameBuffer w = Some f ->
  rcGetNumConfigs p_numAttribs w =
    Returns (fst (getPackInfo f),
             if p_numAttribs then Some (to_uint32 (snd (getPackInfo f))) else None) w.
Proof.
  intros H. unfold rcGetNumConfigs, bind, getFB, get. rewrite H. cbn.
  now destruct (getPackInfo f).
Qed.

(** C6.  [rcCreateContext] returns handle 0 without a backend; with one it
    asks the backend for a context of the kind its version hint names: the
    GLES2 family for 2 and for 3, the GLES1 family for every other value. *)
Theorem rcCreateContext_kind :
  forall (config share glVersion : Z) (w : World),
    rcCreateContext config share glVersion w =
      match theFrameBuffer w with
      | None => Returns 0 w
      | Some f =>
          Returns (fst (createRenderContext f config share (requested_isGL2 glVersion)))
            (set_theFrameBuffer
               (Some (snd (createRenderContext f config share (requested_isGL2 glVersion))))
               w)
      end
    /\ requested_isGL2 2 = true
    /\ requested_isGL2 3 = true
    /\ (glVersion <> 2 -> glVersion <> 3 -> requested_isGL2 glVersion = false).
Proof.
  intros config share glVersion w. repeat split.
  - unfold rcCreateContext, bind, getFB, get.
    destruct (theFrameBuffer w) as [f|]; [|reflexivity].
    assert (E : (glVersion =? 2) || (glVersion =? 3) = requested_isGL2 glVersion).
    { destruct (Z.eqb_spec glVersion 2) as [->|H2]; [reflexivity|].
      destruct (Z.eqb_spec glVersion 3) as [->|H3]; [reflexivity|].
      destruct glVersion as [|[[|[]|]|[|[]|]|]|]; try reflexivity; lia. }
    rewrite E. now destruct (createRenderContext f config share _).
  - intros H2 H3.
    destruct glVersion as [|[[|[]|]|[|[]|]|]|]; try reflexivity; lia.
Qed.

(** C8.  [rcOpenColorBuffer] has the state effect of [rcOpenColorBuffer2],
    one more reference taken by the backend when it exists, and differs
    only in dropping the status the latter returns. *)
Theorem rcOpenColorBuffer_equiv_rcOpenColorBuffer2 :
  forall (colorbuffer : HandleType) (w : World),
    rcOpenColorBuffer2 colorbuffer w =
      Returns (match theFrameBuffer w with
               | Some f => fst (openColorBuffer f colorbuffer)
               | None => -1
               end)
              (OpenColorBuffer_effect colorbuffer w) /\
    rcOpenColorBuffer colorbuffer w = Returns tt (OpenColorBuffer_effect colorbuffer w).
Proof.
  intros colorbuffer w.
  assert (H2 : rcOpenColorBuffer2 colorbuffer w =
               Returns (match theFrameBuffer w with
                        | Some f => fst (openColorBuffer f colorbuffer)
                        | None => -1
                        end)
                       (OpenColorBuffer_effect colorbuffer w)).
  { unfold rcOpenColorBuffer2, OpenColorBuffer_effect, bind, getFB, get.
    destruct (theFrameBuffer w) as [f|]; [|reflexivity].
    now destruct (openColorBuffer f colorbuffer). }
  split; [exact H2|].
  unfold rcOpenColorBuffer, bind at 1. now rewrite H2.
Qed.

End ResourceFacts.

(** ** String queries *)

Section StringFacts.

Context {P : Platform}.

Lemma strlen_strcpy (s : cstring) : strlen (strcpy s) = strlen s + 1.
Proof. unfold strcpy. rewrite strlen_app. reflexivity. Qed.

Lemma strcpy_inj (s t : cstring) : strcpy s = strcpy t -> s = t.
Proof. unfold strcpy. intros H. now apply app_inj_tail in H. Qed.


Lemma snprintf_bounded (n : Z) (text : cstring) :
  0 <= n -> strlen (snprintf n text) <= n.
Proof.
  intros Hn. unfold snprintf.
  destruct (Z.eqb_spec n 0) as [->|Hn0]; [reflexivity|].
  rewrite strlen_app. unfold strlen at 1. rewrite length_firstn.
  change (strlen [NUL]) with 1. lia.
Qed.

(** Every path of [rcQueryEGLString]. *)
Lemma rcQueryEGLString_outcome (name : Z) (buffer : option (list byte))
    (bufferSize : Z) (w : World) :
  rcQueryEGLString name buffer bufferSize w =
    match eglString name w with
    | Some s =>
        let len := to_int (strlen s + 1) in
        if is_null buffer || (len >? bufferSize) then Returns (to_int (- len), []) w
        else Returns (len, strcpy s) w
    | None => Returns (0, []) w
    end.
Proof.
  unfold rcQueryEGLString, eglString, bind, getFB, get.
  destruct (theFrameBuffer w) as [f|]; [|reflexivity].
  destruct (eglQueryString (host w) (getDisplay f) name) as [s|]; [|reflexivity].
  cbv zeta. now destruct (is_null buffer || _).
Qed.

(** Every path of [create_trivial_context]. *)
Lemma create_trivial_context_outcome (w : World) :
  create_trivial_context w =
    match theFrameBuffer w with
    | None => NullDeref w
    | Some f =>
        match getConfig f 0 with
        | None => NullDeref w
        | Some cfg =>
            match trivial_context_bound f cfg w with
            | (Some c, w') => Returns c w'
            | (None, w') => NullDeref w'
            end
        end
    end.
Proof.
  unfold create_trivial_context, trivial_context_bound, bind, getFB, get, deref.
  destruct (theFrameBuffer w) as [f|]; [|reflexivity].
  destruct (getConfig f 0) as [cfg|]; [|reflexivity].
  destruct (RenderContext_create (host w) (getDisplay f) (getEglConfig cfg)
              EGL_NO_CONTEXT true) as [cxt h1].
  unfold modify. cbn [host set_host fst snd].
  destruct (eglCreatePbufferSurface h1 (getDisplay f) (getEglConfig cfg) pbuf_attribs)
    as [surf h2].
  cbn [host set_host fst snd].
  destruct cxt as [c|]; [|reflexivity].
  destruct (eglMakeCurrent h2 (getDisplay f) surf surf (getEGLContext c)) as [ok h3].
  reflexivity.
Qed.

(** [create_trivial_context] leaves everything but the host driver alone. *)
Lemma create_trivial_context_frame (w : World) :
  let w' := final_world (create_trivial_context w) in
  theFrameBuffer w' = theFrameBuffer w /\ tInfo w' = tInfo w /\
  sGrallocSync w' = sGrallocSync w /\
  feature_GrallocSync w' = feature_GrallocSync w /\
  feature_GLPipeChecksum w' = feature_GLPipeChecksum w.
Proof.
  rewrite create_trivial_context_outcome. unfold trivial_context_bound.
  destruct (theFrameBuffer w) as [f|] eqn:Hf; [|cbn; now rewrite Hf].
  destruct (getConfig f 0) as [cfg|]; [|cbn; now rewrite Hf].
  cbv zeta. destruct (fst _); cbn; now rewrite Hf.
Qed.

(** Every path of the first half of [rcGetGLString]. *)
Lemma rcGetGLString_query_outcome (name : Z) (w : World) :
  rcGetGLString_query name w =
    match tInfo w with
    | Some {| currContext := Some ctx |} =>
        let str := if isGL2 ctx then gles2_glGetString (host w) name
                   else gles1_glGetString (host w) name in
        Returns (str, counted str) w
    | t =>
        match create_trivial_context w with
        | Returns c w1 =>
            match t with
            | None => NullDeref w1
            | Some _ =>
                let w2 := set_tInfo (Some {| currContext := Some c |}) w1 in
                match gles2_glGetString (host w2) name with
                | Some s => Returns (Some s, counted (Some s)) w2
                | None => NullDeref w2
                end
            end
        | NullDeref w1 => NullDeref w1
        | Waits w1 => Waits w1
        end
    end.
Proof.
  unfold rcGetGLString_query, bind at 1. unfold get at 1.
  destruct (tInfo w) as [[[ctx|]]|].
  - unfold bind, get, ret, counted. cbv zeta.
    now destruct (if isGL2 ctx then _ else _).
  - unfold bind at 1. destruct (create_trivial_context w) as [c w1|w1|w1]; try reflexivity.
    unfold bind, deref, modify, get, ret. cbv zeta.
    now destruct (gles2_glGetString _ name).
  - unfold bind at 1. destruct (create_trivial_context w) as [c w1|w1|w1]; reflexivity.
Qed.

(** What a returning first half tells: the length counts the string found,
    the string is one of the drivers', and the checksum flag is untouched. *)
Lemma rcGetGLString_query_returns (name : Z) (w w1 : World)
    (str : option cstring) (len : Z) :
  rcGetGLString_query name w = Returns (str, len) w1 ->
  len = counted str /\
  feature_GLPipeChecksum w1 = feature_GLPipeChecksum w /\
  (forall s, str = Some s ->
     exists h, gles1_glGetString h name = Some s \/ gles2_glGetString h name = Some s).
Proof.
  rewrite rcGetGLString_query_outcome.
  pose proof (create_trivial_context_frame w) as Hframe. cbv zeta in Hframe.
  destruct (tInfo w) as [[[ctx|]]|].
  - cbv zeta. intros H. injection H as <- <- <-. repeat split.
    intros s Hs. exists (host w). destruct (isGL2 ctx); auto.
  - destruct (create_trivial_context w) as [c w0|w0|w0]; try discriminate.
    cbv zeta. destruct (gles2_glGetString _ name) as [s0|] eqn:Hs0; [|discriminate].
    intros H. injection H as <- <- <-. repeat split.
    + cbn in Hframe |- *. now destruct Hframe as (_ & _ & _ & _ & ->).
    + intros s Hs. injection Hs as <-. eexists. right. exact Hs0.
  - destruct (create_trivial_context w) as [c w0|w0|w0]; discriminate.
Qed.

(** The second half of [rcGetGLString], once the first has returned. *)
Lemma rcGetGLString_after_query (name : Z) (buffer : option (list byte))
    (bufferSize : Z) (w w1 : World) (str : option cstring) (len : Z) :
  rcGetGLString_query name w = Returns (str, len) w1 ->
  rcGetGLString name buffer bufferSize w =
    let ext := feature_GLPipeChecksum w1 && (name =? GL_EXTENSIONS) in
    let len' :=
      if ext then to_int ((if len =? 0 then 1 else len) + (strlen getMaxVersionString + 1))
      else len in
    if is_null buffer || (len' >? bufferSize) then Returns (to_int (- len'), []) w1
    else if ext then
      Returns (len', snprintf (to_size_t bufferSize)
                       (text_of str ++ getMaxVersionString ++ [SPACE])) w1
    else
      match str with
      | Some s => Returns (len', strcpy s) w1
      | None => Returns (0, if bufferSize >=? 1 then [NUL] else []) w1
      end.
Proof.
  intros Hq. unfold rcGetGLString, bind at 1. rewrite Hq.
  unfold bind, get. cbv zeta.
  destruct (feature_GLPipeChecksum w1 && (name =? GL_EXTENSIONS)).
  - destruct (is_null buffer || _); [reflexivity|]. now destruct str.
  - destruct (is_null buffer || _); [reflexivity|]. now destruct str.
Qed.

(** A first half that does not return ends the whole call the same way. *)
Lemma rcGetGLString_query_crash (name : Z) (buffer : option (list byte))
    (bufferSize : Z) (w w1 : World) :
  rcGetGLString_query name w = NullDeref w1 ->
  rcGetGLString name buffer bufferSize w = NullDeref w1.
Proof. intros Hq. unfold rcGetGLString, bind at 1. now rewrite Hq. Qed.

(** C4 (as amended).  When the backend exists and the display has the
    queried string [s], of length [L = strlen s + 1] within [int]:
    [rcQueryEGLString] stores nothing and returns [-L] if the buffer is null
    or [L > bufferSize], and otherwise stores exactly the [L] bytes of [s]
    and its terminator and returns [L], which is positive.  It returns 0
    when the backend or the string is absent, and then stores nothing. *)
Theorem rcQueryEGLString_convention :
  forall (name : Z) (buffer : option (list byte)) (bufferSize : Z) (w : World),
    (forall s, eglString name w = Some s -> strlen s + 1 <= INT_MAX) ->
    match eglString name w with
    | Some s =>
        let L := strlen s + 1 in
        0 < L /\
        strlen (strcpy s) = L /\
        rcQueryEGLString name buffer bufferSize w =
          (if is_null buffer || (L >? bufferSize) then Returns (- L, []) w
           else Returns (L, strcpy s) w)
    | None => rcQueryEGLString name buffer bufferSize w = Returns (0, []) w
    end /\
    (forall (r : Z) (stored : list byte) (w' : World),
        rcQueryEGLString name buffer bufferSize w = Returns (r, stored) w' ->
        (r = 0 <-> eglString name w = None) /\ (r = 0 -> stored = [])).
Proof.
  intros name buffer bufferSize w Hfit.
  rewrite rcQueryEGLString_outcome.
  destruct (eglString name w) as [s|].
  - specialize (Hfit s eq_refl). pose proof (strlen_nonneg s) as Hs.
    cbv zeta. rewrite strlen_strcpy.
    rewrite (to_int_small (strlen s + 1)) by (unfold INT_MIN, INT_MAX in *; lia).
    rewrite (to_int_small (- (strlen s + 1))) by (unfold INT_MIN, INT_MAX in *; lia).
    split; [repeat split; lia|].
    intros r stored w' H.
    assert (Hr : r <> 0).
    { destruct (is_null buffer || _) in H; injection H as <- _ _; lia. }
    repeat split; try discriminate; intros; lia.
  - split; [reflexivity|].
    intros r stored w' H. injection H as <- <- _. repeat split.
Qed.

(** C7 (defect).  [rcGetGLString] on a thread without a bound context is meant
    to succeed through the trivial context.  [create_trivial_context] calls
    through [FrameBuffer::getFB()] unchecked: while the backend does not
    exist the call dereferences the null pointer, and no context is bound. *)
Theorem rcGetGLString_no_context_absent_backend :
  forall (name : Z) (buffer : option (list byte)) (bufferSize : Z) (w : World),
    let w0 := set_tInfo (Some {| currContext := None |}) (set_theFrameBuffer None w) in
    rcGetGLString name buffer bufferSize w0 = NullDeref w0 /\
    tInfo w0 = Some {| currContext := None |}.
Proof.
  intros name buffer bufferSize w w0. split; [|reflexivity].
  apply rcGetGLString_query_crash.
  rewrite rcGetGLString_query_outcome, create_trivial_context_outcome. reflexivity.
Qed.

(** A thread that has no [RenderThreadInfo] at all: the trivial context is
    created and made current, then storing it dereferences the null
    [tInfo]. *)
Lemma rcGetGLString_null_tInfo (name : Z) (buffer : option (list byte))
    (bufferSize : Z) (w w1 : World) (c : RenderContext) :
  tInfo w = None ->
  create_trivial_context w = Returns c w1 ->
  rcGetGLString name buffer bufferSize w = NullDeref w1.
Proof.
  intros Ht Hc. apply rcGetGLString_query_crash.
  rewrite rcGetGLString_query_outcome, Ht, Hc. reflexivity.
Qed.







(** X22.  Whatever the name and the buffer size, with driver strings that fit
    an [int], [rcGetGLString] stores no more than [bufferSize] bytes: it
    stores nothing through a null buffer or when the buffer is too small,
    and what it stores otherwise fits. *)
Theorem rcGetGLString_write_bounded :
  forall (name : Z) (buffer : option (list byte)) (bufferSize r : Z)
         (stored : list byte) (w w' : World),
    driver_strings_fit ->
    rcGetGLString name buffer bufferSize w = Returns (r, stored) w' ->
    strlen stored <= Z.max 0 bufferSize /\
    (stored <> [] -> is_null buffer = false).
Proof.
  intros name buffer bufferSize r stored w w' [Htok Hdrv] H.
  destruct (rcGetGLString_query name w) as [[str len] w1|w1|w1] eqn:Hq.
  2, 3: unfold rcGetGLString, bind at 1 in H; rewrite Hq in H; discriminate.
  destruct (rcGetGLString_query_returns _ _ _ _ _ Hq) as (Hlen & _ & Hstr).
  rewrite (rcGetGLString_after_query _ buffer bufferSize _ _ _ _ Hq) in H.
  cbv zeta in H.
  pose proof (strlen_nonneg getMaxVersionString) as Ht.
  assert (Hcount : len = match str with
                         | Some _ => strlen (text_of str) + 1
                         | None => 0
                         end).
  { subst len. unfold counted. destruct str as [s|]; [|reflexivity].
    destruct (Hstr s eq_refl) as [h Hh]. specialize (Hdrv h name s Hh).
    pose proof (strlen_nonneg s).
    apply to_int_small. cbn [text_of]. unfold INT_MIN, INT_MAX in *. lia. }
  assert (Hfit : strlen (text_of str) + strlen getMaxVersionString + 2 <= INT_MAX).
  { destruct str as [s|]; cbn [text_of].
    - destruct (Hstr s eq_refl) as [h Hh]. exact (Hdrv h name s Hh).
    - exact Htok. }
  pose proof (strlen_nonneg (text_of str)) as Hd.
  destruct (is_null buffer); cbn [orb] in H.
  { injection H as _ <- _. split; [cbn; lia | congruence]. }
  split; [|reflexivity].
  destruct (feature_GLPipeChecksum w1 && (name =? GL_EXTENSIONS)).
  - assert (Hlen' : to_int ((if len =? 0 then 1 else len)
                            + (strlen getMaxVersionString + 1))
                    = strlen (text_of str) + strlen getMaxVersionString + 2).
    { replace (if len =? 0 then 1 else len) with (strlen (text_of str) + 1).
      - rewrite to_int_small; unfold INT_MIN, INT_MAX in *; lia.
      - rewrite Hcount. destruct str as [s|]; cbn [text_of] in *.
        + destruct (Z.eqb_spec (strlen s + 1) 0); [lia | reflexivity].
        + reflexivity. }
    rewrite Hlen' in H.
    destruct (Z.gtb_spec (strlen (text_of str) + strlen getMaxVersionString + 2)
                bufferSize) as [Hgt|Hle].
    + injection H as _ <- _. cbn. lia.
    + injection H as _ <- _.
      assert (Hn : 0 <= to_size_t bufferSize <= bufferSize).
      { unfold to_size_t.
        pose proof (Z.mod_pos_bound bufferSize 18446744073709551616 eq_refl).
        pose proof (Z.mod_le bufferSize 18446744073709551616). lia. }
      pose proof (snprintf_bounded (to_size_t bufferSize)
                    (text_of str ++ getMaxVersionString ++ [SPACE])). lia.
  - destruct (Z.gtb_spec len bufferSize) as [Hgt|Hle].
    + injection H as _ <- _. cbn. lia.
    + destruct str as [s|]; cbn [text_of] in *.
      * injection H as _ <- _. rewrite strlen_strcpy. lia.
      * injection H as _ <- _.
        destruct (Z.geb_spec bufferSize 1); cbn; lia.
Qed.

(** The count of [rcGetGLString] wraps around for a driver string of
    [INT_MAX] bytes: on a thread with a bound context and no token to
    append, [len] is [INT_MIN], no buffer size is smaller, and [strcpy]
    stores the whole string. *)
Lemma rcGetGLString_long_string (name bufferSize : Z) (mem : list byte)
    (w : World) (ctx : RenderContext) (s : cstring) :
  tInfo w = Some {| currContext := Some ctx |} ->
  (if isGL2 ctx then gles2_glGetString (host w) name
   else gles1_glGetString (host w) name) = Some s ->
  strlen s = INT_MAX ->
  feature_GLPipeChecksum w && (name =? GL_EXTENSIONS) = false ->
  INT_MIN <= bufferSize ->
  rcGetGLString name (Some mem) bufferSize w = Returns (INT_MIN, strcpy s) w.
Proof.
  intros Ht Hs Hlen Hext Hsize.
  assert (Hq : rcGetGLString_query name w = Returns (Some s, counted (Some s)) w).
  { rewrite rcGetGLString_query_outcome, Ht. cbv zeta. now rewrite Hs. }
  rewrite (rcGetGLString_after_query _ (Some mem) bufferSize _ _ _ _ Hq).
  cbv zeta. rewrite Hext. unfold counted. rewrite Hlen.
  change (to_int (INT_MAX + 1)) with INT_MIN. cbn [is_null orb].
  destruct (Z.gtb_spec INT_MIN bufferSize); [lia | reflexivity].
Qed.

(** X23.  When the checksum token is appended (the feature is enabled and
    the name is [GL_EXTENSIONS]), what [rcGetGLString] stores never exceeds
    a non-negative [bufferSize], whatever the drivers' strings are: the
    fill is [snprintf] with [bufferSize] as its limit. *)
Theorem rcGetGLString_checksum_fill_bounded :
  forall (buffer : option (list byte)) (bufferSize r : Z)
         (stored : list byte) (w w' : World),
    0 <= bufferSize ->
    feature_GLPipeChecksum w = true ->
    rcGetGLString GL_EXTENSIONS buffer bufferSize w = Returns (r, stored) w' ->
    strlen stored <= bufferSize.
Proof.
  intros buffer bufferSize r stored w w' Hsize Hon H.
  destruct (rcGetGLString_query GL_EXTENSIONS w) as [[str len] w1|w1|w1] eqn:Hq.
  2, 3: unfold rcGetGLString, bind at 1 in H; rewrite Hq in H; discriminate.
  destruct (rcGetGLString_query_returns _ _ _ _ _ Hq) as (_ & Hflag & _).
  rewrite (rcGetGLString_after_query _ buffer bufferSize _ _ _ _ Hq) in H.
  rewrite Hflag, Hon, Z.eqb_refl in H. cbv zeta in H. cbn [andb] in H.
  destruct (is_null buffer || _).
  - injection H as _ <- _. cbn. lia.
  - injection H as _ <- _.
    assert (Hn : 0 <= to_size_t bufferSize <= bufferSize).
    { unfold to_size_t.
      pose proof (Z.mod_pos_bound bufferSize 18446744073709551616 eq_refl).
      pose proof (Z.mod_le bufferSize 18446744073709551616). lia. }
    pose proof (snprintf_bounded (to_size_t bufferSize)
                  (text_of str ++ getMaxVersionString ++ [SPACE])). lia.
Qed.

End StringFacts.

(** ** More on the ordering gate *)

Section GateMore.

Context {P : Platform}.

Ltac gate_cases w :=
  destruct w as [fb h [[[|] [|]]|] t [|] c]; cbn in *; try discriminate; try reflexivity.

(** X1.  With a backend and the gate not held, [rcColorBufferCacheFlush]
    followed by [rcUpdateColorBuffer] returns 0 twice, holds the gate in
    between when it is enabled, and ends with the gate released, the backend
    updated once and nothing else changed. *)
Theorem cache_flush_then_update_releases :
  forall (colorBuffer : HandleType) (postCount forRead x y width height format type : Z)
         (pixels : list byte) (w : World) (f : FrameBuffer),
    theFrameBuffer w = Some f ->
    gate_held w = false ->
    exists w1 w2 : World,
      rcColorBufferCacheFlush colorBuffer postCount forRead w = Returns 0 w1 /\
      rcUpdateColorBuffer colorBuffer x y width height format type pixels w1
        = Returns 0 w2 /\
      gate_held w1 = gate_enabled w /\
      gate_held w2 = false /\
      gate_enabled w2 = gate_enabled w /\
      theFrameBuffer w2
        = Some (updateColorBuffer f colorBuffer x y width height format type pixels) /\
      host w2 = host w /\ tInfo w2 = tInfo w.
Proof.
  intros colorBuffer postCount forRead x y width height format type pixels w f Hf Hfree.
  exists (gate_taken w).
  exists (gate_released
            (set_theFrameBuffer
               (Some (updateColorBuffer f colorBuffer x y width height format type pixels))
               (gate_taken w))).
  split.
  { unfold rcColorBufferCacheFlush, bind. rewrite lockCb_outcome, Hfree. reflexivity. }
  split.
  { rewrite rcUpdateColorBuffer_outcome.
    replace (theFrameBuffer (gate_taken w)) with (Some f) by (now destruct w).
    reflexivity. }
  split; [apply gate_held_taken|].
  split; [apply gate_held_released|].
  repeat split; gate_cases w.
Qed.


(** X3.  While the gate is enabled, a returned [rcColorBufferCacheFlush]
    shuts out every other taker: a second [rcColorBufferCacheFlush] and
    every [rcFlushWindowColorBuffer] wait, whatever their arguments, and the
    world stays as it is until [rcUpdateColorBuffer], which never waits,
    runs. *)
Theorem held_gate_makes_takers_wait :
  forall (colorBuffer : HandleType) (postCount forRead : Z) (w w1 : World),
    gate_enabled w = true ->
    rcColorBufferCacheFlush colorBuffer postCount forRead w = Returns 0 w1 ->
    (forall (colorBuffer' : HandleType) (postCount' forRead' : Z),
        rcColorBufferCacheFlush colorBuffer' postCount' forRead' w1 = Waits w1) /\
    (forall windowSurface : HandleType,
        rcFlushWindowColorBuffer windowSurface w1 = Waits w1) /\
    (forall (colorBuffer' : HandleType) (x y width height format type : Z)
            (pixels : list byte),
        returns (rcUpdateColorBuffer colorBuffer' x y width height format type pixels w1)
          = true).
Proof.
  intros colorBuffer postCount forRead w w1 Hen H.
  assert (Hheld : gate_held w1 = true).
  { unfold rcColorBufferCacheFlush, bind in H. rewrite lockCb_outcome in H.
    destruct (gate_held w); [discriminate|]. injection H as <-.
    now rewrite gate_held_taken. }
  repeat split.
  - intros. unfold rcColorBufferCacheFlush, bind. now rewrite lockCb_outcome, Hheld.
  - intros. now rewrite rcFlushWindowColorBuffer_outcome, Hheld.
  - intros. rewrite rcUpdateColorBuffer_outcome. now destruct (theFrameBuffer w1).
Qed.

(** X4.  With the gate disabled none of the three operations ever waits or
    leaves the gate held, and the gate stays disabled. *)
Theorem disabled_gate_never_waits :
  forall w : World,
    gate_enabled w = false ->
    (forall (colorBuffer : HandleType) (postCount forRead : Z),
        exists w', rcColorBufferCacheFlush colorBuffer postCount forRead w = Returns 0 w'
                   /\ gate_held w' = false /\ gate_enabled w' = false) /\
    (forall windowSurface : HandleType,
        exists r w', rcFlushWindowColorBuffer windowSurface w = Returns r w'
                     /\ gate_held w' = false /\ gate_enabled w' = false) /\
    (forall (colorBuffer : HandleType) (x y width height format type : Z)
            (pixels : list byte),
        exists r w',
          rcUpdateColorBuffer colorBuffer x y width height format type pixels w
            = Returns r w'
          /\ gate_held w' = false /\ gate_enabled w' = false).
Proof.
  intros w Hoff.
  assert (Hfree : gate_held w = false) by gate_cases w.
  assert (Htaken : forall fb, gate_held (set_theFrameBuffer fb (gate_taken w)) = false
                              /\ gate_enabled (set_theFrameBuffer fb (gate_taken w)) = false).
  { intros fb0. split; gate_cases w. }
  assert (Hrel : forall fb, gate_enabled (gate_released (set_theFrameBuffer fb w)) = false).
  { intros fb0. gate_cases w. }
  repeat split.
  - intros. exists (gate_taken w).
    unfold rcColorBufferCacheFlush, bind. rewrite lockCb_outcome, Hfree.
    split; [reflexivity|]. split; gate_cases w.
  - intros. rewrite rcFlushWindowColorBuffer_outcome, Hfree.
    destruct (theFrameBuffer w) as [f|].
    + cbv zeta. destruct (fst _); do 2 eexists; (split; [reflexivity|]).
      * split; [apply gate_held_released|].
        clear Hfree Htaken Hrel. gate_cases w.
      * apply Htaken.
    + do 2 eexists. split; [reflexivity|]. split; gate_cases w.
  - intros. rewrite rcUpdateColorBuffer_outcome.
    destruct (theFrameBuffer w) as [f|]; do 2 eexists; (split; [reflexivity|]).
    + split; [apply gate_held_released | apply Hrel].
    + split; assumption.
Qed.

(** X5.  [rcGetRendererVersion] returns 1 and at most constructs the gate:
    whether the gate is enabled and whether it is held do not change,
    nothing but the gate's instance differs afterwards, and a second call
    changes nothing at all. *)
Theorem rcGetRendererVersion_constructs_gate :
  forall w : World,
    exists w',
      rcGetRendererVersion w = Returns 1 w' /\
      same_but_gate w w' /\
      sGrallocSync w'
        = Some {| mEnabled := gate_enabled w; mGrallocCbLock := gate_lock w |} /\
      gate_enabled w' = gate_enabled w /\
      gate_held w' = gate_held w /\
      rcGetRendererVersion w' = Returns 1 w'.
Proof.
  intros w. destruct w as [fb h [[en l]|] t g c].
  - eexists. split; [reflexivity|]. repeat split.
  - eexists. split; [reflexivity|]. repeat split. now destruct g.
Qed.

(** X6.  The gate reads the [GrallocSync] feature flag only when its
    instance is constructed: once the instance exists, the three gate
    operations end the same way, with the same result and the same gate,
    whatever the flag says by then. *)
Theorem gate_flag_read_once :
  forall (b : bool) (g : GrallocSync) (w : World),
    sGrallocSync w = Some g ->
    (forall (colorBuffer : HandleType) (postCount forRead : Z),
        rcColorBufferCacheFlush colorBuffer postCount forRead (with_feature_GrallocSync b w)
          = in_world (with_feature_GrallocSync b)
              (rcColorBufferCacheFlush colorBuffer postCount forRead w)) /\
    (forall windowSurface : HandleType,
        rcFlushWindowColorBuffer windowSurface (with_feature_GrallocSync b w)
          = in_world (with_feature_GrallocSync b)
              (rcFlushWindowColorBuffer windowSurface w)) /\
    (forall (colorBuffer : HandleType) (x y width height format type : Z)
            (pixels : list byte),
        rcUpdateColorBuffer colorBuffer x y width height format type pixels
          (with_feature_GrallocSync b w)
          = in_world (with_feature_GrallocSync b)
              (rcUpdateColorBuffer colorBuffer x y width height format type pixels w)).
Proof.
  intros b g w Hg.
  assert (Hheld : gate_held (with_feature_GrallocSync b w) = gate_held w) by reflexivity.
  assert (Htaken : gate_taken (with_feature_GrallocSync b w)
                   = with_feature_GrallocSync b (gate_taken w)).
  { destruct w as [fb h s t fl c]. cbn in Hg. subst s. reflexivity. }
  assert (Hrel : forall fb,
             gate_released (set_theFrameBuffer fb (with_feature_GrallocSync b w))
             = with_feature_GrallocSync b (gate_released (set_theFrameBuffer fb w))).
  { intros fb0. destruct w as [fb h s t fl c]. cbn in Hg. subst s. reflexivity. }
  assert (Hrel2 : forall fb,
             gate_released (set_theFrameBuffer fb (with_feature_GrallocSync b (gate_taken w)))
             = with_feature_GrallocSync b
                 (gate_released (set_theFrameBuffer fb (gate_taken w)))).
  { intros fb0. destruct w as [fb h s t fl c]. cbn in Hg. subst s. reflexivity. }
  repeat split.
  - intros. unfold rcColorBufferCacheFlush, bind. rewrite !lockCb_outcome, Hheld, Htaken.
    now destruct (gate_held w).
  - intros. rewrite !rcFlushWindowColorBuffer_outcome, Hheld, Htaken.
    destruct (gate_held w); [reflexivity|].
    change (theFrameBuffer (with_feature_GrallocSync b w)) with (theFrameBuffer w).
    destruct (theFrameBuffer w) as [f|]; [|reflexivity].
    cbv zeta. destruct (fst _); [|reflexivity].
    cbn [in_world]. now rewrite <- Hrel2.
  - intros. rewrite !rcUpdateColorBuffer_outcome.
    change (theFrameBuffer (with_feature_GrallocSync b w)) with (theFrameBuffer w).
    destruct (theFrameBuffer w) as [f|]; [|reflexivity].
    cbn [in_world]. now rewrite <- Hrel.
Qed.

End GateMore.

(** ** More on the string queries *)

Section StringMore.

Context {P : Platform}.


(** The world [rcGetGLString] ends in is the one its first half ends in. *)
Lemma rcGetGLString_final_world (name : Z) (buffer : option (list byte))
    (bufferSize : Z) (w : World) :
  final_world (rcGetGLString name buffer bufferSize w)
    = final_world (rcGetGLString_query name w).
Proof.
  destruct (rcGetGLString_query name w) as [[str len] w1|w1|w1] eqn:Hq.
  - rewrite (rcGetGLString_after_query _ buffer bufferSize _ _ _ _ Hq). cbv zeta.
    destruct (is_null buffer || _); [reflexivity|].
    destruct (feature_GLPipeChecksum w1 && _); [reflexivity|]. now destruct str.
  - now rewrite (rcGetGLString_query_crash _ buffer bufferSize _ _ Hq).
  - unfold rcGetGLString, bind at 1. now rewrite Hq.
Qed.

(** With a bound context [rcGetGLString] asks the driver of the context's
    kind and returns in the world it found. *)
Lemma rcGetGLString_bound_outcome (name : Z) (buffer : option (list byte))
    (bufferSize : Z) (w : World) (ctx : RenderContext) :
  tInfo w = Some {| currContext := Some ctx |} ->
  rcGetGLString_query name w =
    Returns ((if isGL2 ctx then gles2_glGetString (host w) name
              else gles1_glGetString (host w) name),
             counted (if isGL2 ctx then gles2_glGetString (host w) name
                      else gles1_glGetString (host w) name)) w /\
  exists x, rcGetGLString name buffer bufferSize w = Returns x w.
Proof.
  intros Ht.
  assert (Hq : rcGetGLString_query name w =
               Returns ((if isGL2 ctx then gles2_glGetString (host w) name
                         else gles1_glGetString (host w) name),
                        counted (if isGL2 ctx then gles2_glGetString (host w) name
                                 else gles1_glGetString (host w) name)) w).
  { rewrite rcGetGLString_query_outcome, Ht. reflexivity. }
  split; [exact Hq|].
  rewrite (rcGetGLString_after_query _ buffer bufferSize _ _ _ _ Hq). cbv zeta.
  destruct (is_null buffer || _); [eexists; reflexivity|].
  destruct (feature_GLPipeChecksum w && _); [eexists; reflexivity|].
  destruct (if isGL2 ctx then _ else _); eexists; reflexivity.
Qed.

(** X8.  However [rcGetGLString] ends, the backend, the gate and the feature
    flags are as it found them, and it never waits for the gate; on a thread
    with a bound context the whole world is as it found it. *)
Theorem rcGetGLString_frame :
  forall (name : Z) (buffer : option (list byte)) (bufferSize : Z) (w : World),
    let o := rcGetGLString name buffer bufferSize w in
    theFrameBuffer (final_world o) = theFrameBuffer w /\
    same_gate w (final_world o) /\
    (forall w1, o <> Waits w1) /\
    (forall ctx, tInfo w = Some {| currContext := Some ctx |} -> final_world o = w).
Proof.
  intros name buffer bufferSize w o. subst o.
  assert (Hwait : forall w1, rcGetGLString name buffer bufferSize w <> Waits w1).
  { intros w1 H.
    destruct (rcGetGLString_query name w) as [[str len] w2|w2|w2] eqn:Hq.
    - rewrite (rcGetGLString_after_query _ buffer bufferSize _ _ _ _ Hq) in H.
      cbv zeta in H. destruct (is_null buffer || _); [discriminate|].
      destruct (feature_GLPipeChecksum w2 && _); [discriminate|].
      destruct str; discriminate.
    - rewrite (rcGetGLString_query_crash _ buffer bufferSize _ _ Hq) in H. discriminate.
    - rewrite rcGetGLString_query_outcome in Hq.
      pose proof (create_trivial_context_outcome w) as Hc.
      destruct (tInfo w) as [[[ctx|]]|]; try discriminate;
        destruct (create_trivial_context w) as [c w0|w0|w0]; try discriminate.
      + cbv zeta in Hq. destruct (gles2_glGetString _ name); discriminate.
      + destruct (theFrameBuffer w); [|discriminate].
        destruct (getConfig _ 0); [|discriminate].
        destruct (trivial_context_bound _ _ w) as [[?|] ?]; discriminate.
      + destruct (theFrameBuffer w); [|discriminate].
        destruct (getConfig _ 0); [|discriminate].
        destruct (trivial_context_bound _ _ w) as [[?|] ?]; discriminate. }
  rewrite rcGetGLString_final_world, rcGetGLString_query_outcome.
  pose proof (create_trivial_context_frame w) as Hframe. cbv zeta in Hframe.
  unfold same_gate.
  destruct (tInfo w) as [[[ctx|]]|] eqn:Ht.
  - cbn. repeat split; auto.
  - destruct (create_trivial_context w) as [c w0|w0|w0]; cbn in Hframe |- *;
      destruct Hframe as (Hfb & _ & Hs & Hg & Hc).
    + destruct (gles2_glGetString _ name); cbn; repeat split; auto; discriminate.
    + repeat split; auto; discriminate.
    + repeat split; auto; discriminate.
  - destruct (create_trivial_context w) as [c w0|w0|w0]; cbn in Hframe |- *;
      destruct Hframe as (Hfb & _ & Hs & Hg & Hc); repeat split; auto; discriminate.
Qed.

(** X9.  Whenever [rcGetGLString] returns, the calling thread has a bound
    context afterwards, and from then on every [rcGetGLString] on that
    thread returns and leaves the world as it is: the trivial context is
    made at most once. *)
Theorem rcGetGLString_leaves_context_bound :
  forall (name : Z) (buffer : option (list byte)) (bufferSize : Z)
         (x : Z * list byte) (w w' : World),
    rcGetGLString name buffer bufferSize w = Returns x w' ->
    exists ctx,
      tInfo w' = Some {| currContext := Some ctx |} /\
      (forall (name' : Z) (buffer' : option (list byte)) (bufferSize' : Z),
          exists x', rcGetGLString name' buffer' bufferSize' w' = Returns x' w').
Proof.
  intros name buffer bufferSize x w w' H.
  assert (Hw : final_world (rcGetGLString_query name w) = w').
  { rewrite <- rcGetGLString_final_world with (buffer := buffer) (bufferSize := bufferSize).
    now rewrite H. }
  assert (Hq : exists y, rcGetGLString_query name w = Returns y w').
  { destruct (rcGetGLString_query name w) as [y w1|w1|w1] eqn:Hq.
    - cbn in Hw. subst w1. now exists y.
    - rewrite (rcGetGLString_query_crash _ buffer bufferSize _ _ Hq) in H. discriminate.
    - unfold rcGetGLString, bind at 1 in H. rewrite Hq in H. discriminate. }
  destruct Hq as [y Hq]. rewrite rcGetGLString_query_outcome in Hq.
  assert (Hctx : exists ctx, tInfo w' = Some {| currContext := Some ctx |}).
  { destruct (tInfo w) as [[[ctx|]]|] eqn:Ht.
    - cbv zeta in Hq. injection Hq as _ <-. now exists ctx.
    - destruct (create_trivial_context w) as [c w0|w0|w0]; try discriminate.
      cbv zeta in Hq. destruct (gles2_glGetString _ name); [|discriminate].
      injection Hq as _ <-. now exists c.
    - destruct (create_trivial_context w) as [c w0|w0|w0]; discriminate. }
  destruct Hctx as [ctx Hctx]. exists ctx. split; [exact Hctx|].
  intros name' buffer' bufferSize'.
  exact (proj2 (rcGetGLString_bound_outcome name' buffer' bufferSize' w' ctx Hctx)).
Qed.




End StringMore.

(** ** The guarded operations *)

Section RestFacts.

Context {P : Platform} {R : PlatformRest}.

Lemma on_backend_returns {A} (f : FrameBuffer)
    (method : FrameBuffer * HostGL * option RenderThreadInfo ->
              A * (FrameBuffer * HostGL * option RenderThreadInfo)) (w : World) :
  exists a w', on_backend f method w = Returns a w' /\ same_gate w w' /\
               (a, (theFrameBuffer w', host w', tInfo w'))
               = (fst (method (f, host w, tInfo w)),
                  (Some (fst (fst (snd (method (f, host w, tInfo w))))),
                   snd (fst (snd (method (f, host w, tInfo w)))),
                   snd (snd (method (f, host w, tInfo w))))).
Proof.
  unfold on_backend. destruct (method (f, host w, tInfo w)) as [a [[f' h'] t']].
  do 2 eexists. split; [reflexivity|]. split; [|reflexivity]. now destruct w.
Qed.

(** The shape the guarded operations share. *)
Lemma guarded_on_backend {A} (neutral : A)
    (method : FrameBuffer -> FrameBuffer * HostGL * option RenderThreadInfo ->
              A * (FrameBuffer * HostGL * option RenderThreadInfo)) :
  guarded (fb <- getFB ;;
           match fb with
           | None => ret neutral
           | Some f => on_backend f (method f)
           end) neutral.
Proof.
  intros w. unfold bind, getFB, get.
  destruct (theFrameBuffer w) as [f|].
  - split; [|discriminate].
    destruct (on_backend_returns f (method f) w) as (a & w' & H & Hg & _).
    now exists a, w'.
  - split; [|reflexivity]. exists neutral, w. now repeat split.
Qed.

(** X12.  [rcGetEGLVersion] (with both out-pointers set), [rcChooseConfig]
    and [rcMakeCurrent] are guarded: they always return, leave the gate
    alone, and without a backend answer [EGL_FALSE], 0 and [EGL_FALSE] with
    nothing stored.  Besides, [rcChooseConfig] answers 0 for an empty
    attribute list even with a backend, [rcMakeCurrent] only ever answers
    [EGL_TRUE] or [EGL_FALSE], and a successful [rcGetEGLVersion] stores two
    values that fit an [EGLint]. *)
Theorem queries_guarded :
  guarded (rcGetEGLVersion true true) (EGL_FALSE, None, None) /\
  (forall attribs attribs_size configs configs_size,
      guarded (rcChooseConfig attribs attribs_size configs configs_size) (0, [])) /\
  (forall context drawSurf readSurf,
      guarded (rcMakeCurrent context drawSurf readSurf) EGL_FALSE) /\
  (forall attribs configs configs_size w,
      rcChooseConfig attribs 0 configs configs_size w = Returns (0, []) w) /\
  (forall context drawSurf readSurf w r w',
      rcMakeCurrent context drawSurf readSurf w = Returns r w' ->
      r = EGL_TRUE \/ r = EGL_FALSE) /\
  (forall w r major minor w',
      rcGetEGLVersion true true w = Returns (r, major, minor) w' ->
      w' = w /\
      (r = EGL_FALSE /\ major = None /\ minor = None /\ theFrameBuffer w = None \/
       r = EGL_TRUE /\
       exists f a b, theFrameBuffer w = Some f /\ major = Some a /\ minor = Some b /\
                     INT_MIN <= a <= INT_MAX /\ INT_MIN <= b <= INT_MAX)).
Proof.
  split; [|split; [|split; [|split; [|split]]]].
  - intros w. unfold rcGetEGLVersion, bind, getFB, get.
    destruct (theFrameBuffer w) as [f|].
    + split; [|discriminate]. do 2 eexists. split; [reflexivity|]. now repeat split.
    + split; [|reflexivity]. do 2 eexists. split; [reflexivity|]. now repeat split.
  - intros attribs attribs_size configs configs_size w.
    unfold rcChooseConfig, bind, getFB, get.
    destruct (theFrameBuffer w) as [f|].
    + split; [|discriminate].
      destruct (attribs_size =? 0); do 2 eexists; (split; [reflexivity|]); now repeat split.
    + split; [|reflexivity]. do 2 eexists. split; [reflexivity|]. now repeat split.
  - intros context drawSurf readSurf w. split.
    + unfold rcMakeCurrent, bind, getFB, get. destruct (theFrameBuffer w) as [f|].
      * destruct (on_backend_returns f
                    (fun o => bindContext o context drawSurf readSurf) w)
          as (a & w' & -> & Hg & _).
        do 2 eexists. split; [reflexivity | exact Hg].
      * do 2 eexists. split; [reflexivity|]. now repeat split.
    + intros Hn. unfold rcMakeCurrent, bind, getFB, get. now rewrite Hn.
  - intros attribs configs configs_size w. unfold rcChooseConfig, bind, getFB, get.
    now destruct (theFrameBuffer w).
  - intros context drawSurf readSurf w r w'. unfold rcMakeCurrent, bind, getFB, get.
    destruct (theFrameBuffer w) as [f|].
    + destruct (on_backend_returns f
                  (fun o => bindContext o context drawSurf readSurf) w)
        as (a & w1 & -> & _ & _).
      intros H. injection H as <- _. destruct a; auto.
    + intros H. injection H as <- _. auto.
  - intros w r major minor w'. unfold rcGetEGLVersion, bind, getFB, get.
    destruct (theFrameBuffer w) as [f|]; cbn; intros H; injection H as <- <- <- <-.
    + split; [reflexivity|]. right. split; [reflexivity|].
      exists f, (to_int (getCaps_eglMajor f)), (to_int (getCaps_eglMinor f)).
      repeat split; apply to_int_range.
    + split; [reflexivity|]. left. now repeat split.
Qed.

(** X13.  [rcCreateWindowSurface], [rcCreateColorBuffer],
    [rcCreateClientImage] and [rcDestroyClientImage] are guarded: they
    always return, leave the gate alone, and without a backend return
    handle 0 (or status 0) and change nothing. *)
Theorem creators_guarded :
  (forall config width height, guarded (rcCreateWindowSurface config width height) 0) /\
  (forall width height internalFormat,
      guarded (rcCreateColorBuffer width height internalFormat) 0) /\
  (forall context target buffer, guarded (rcCreateClientImage context target buffer) 0) /\
  (forall image, guarded (rcDestroyClientImage image) 0).
Proof.
  split; [|split; [|split]]; intros.
  - exact (guarded_on_backend 0 (fun _ o => createWindowSurface o config width height)).
  - exact (guarded_on_backend 0 (fun _ o => createColorBuffer o width height internalFormat)).
  - exact (guarded_on_backend 0 (fun _ o => createClientImage o context target buffer)).
  - exact (guarded_on_backend 0 (fun _ o => destroyClientImage o image)).
Qed.

(** X14.  [rcDestroyContext], [rcDestroyWindowSurface], [rcCloseColorBuffer]
    and [rcSetWindowColorBuffer] are guarded: they always return, leave the
    gate alone, and without a backend do nothing. *)
Theorem destroyers_guarded :
  (forall context, guarded (rcDestroyContext context) tt) /\
  (forall windowSurface, guarded (rcDestroyWindowSurface windowSurface) tt) /\
  (forall colorbuffer, guarded (rcCloseColorBuffer colorbuffer) tt) /\
  (forall windowSurface colorBuffer,
      guarded (rcSetWindowColorBuffer windowSurface colorBuffer) tt).
Proof.
  split; [|split; [|split]]; intros.
  - exact (guarded_on_backend tt (fun _ o => (tt, DestroyRenderContext o context))).
  - exact (guarded_on_backend tt (fun _ o => (tt, DestroyWindowSurface o windowSurface))).
  - exact (guarded_on_backend tt (fun _ o => (tt, closeColorBuffer o colorbuffer))).
  - exact (guarded_on_backend tt
             (fun _ o => (tt, setWindowSurfaceColorBuffer o windowSurface colorBuffer))).
Qed.

(** X15.  [rcFBPost], [rcBindTexture], [rcBindRenderbuffer] and
    [rcReadColorBuffer] are guarded: they always return, leave the gate
    alone, and without a backend do nothing; in particular
    [rcReadColorBuffer] then stores no pixel. *)
Theorem presenters_guarded :
  (forall colorBuffer, guarded (rcFBPost colorBuffer) tt) /\
  (forall colorBuffer, guarded (rcBindTexture colorBuffer) tt) /\
  (forall colorBuffer, guarded (rcBindRenderbuffer colorBuffer) tt) /\
  (forall colorBuffer x y width height format type,
      guarded (rcReadColorBuffer colorBuffer x y width height format type) []).
Proof.
  split; [|split; [|split]]; intros.
  - exact (guarded_on_backend tt (fun _ o => (tt, post o colorBuffer))).
  - exact (guarded_on_backend tt (fun _ o => (tt, bindColorBufferToTexture o colorBuffer))).
  - exact (guarded_on_backend tt
             (fun _ o => (tt, bindColorBufferToRenderbuffer o colorBuffer))).
  - exact (guarded_on_backend []
             (fun _ o => readColorBuffer o colorBuffer x y width height format type)).
Qed.

(** X16.  [rcGetFBParam] never changes the world.  It answers 0 without a
    backend and for every parameter that is none of the seven [FB_*] names;
    with a backend it answers the backend's width and height, 72 for both
    DPI parameters, 60 for the refresh rate and 1 for both swap-interval
    bounds.  [rcFBSetSwapInterval] changes nothing, so the interval stays
    within those bounds. *)
Theorem rcGetFBParam_values :
  forall (param : Z) (w : World),
    exists r,
      rcGetFBParam param w = Returns r w /\
      (theFrameBuffer w = None -> r = 0) /\
      (~ In param [FB_WIDTH; FB_HEIGHT; FB_XDPI; FB_YDPI; FB_FPS;
                   FB_MIN_SWAP_INTERVAL; FB_MAX_SWAP_INTERVAL] -> r = 0) /\
      (forall f, theFrameBuffer w = Some f ->
         (param = FB_WIDTH -> r = getWidth f) /\
         (param = FB_HEIGHT -> r = getHeight f) /\
         (param = FB_XDPI \/ param = FB_YDPI -> r = 72) /\
         (param = FB_FPS -> r = 60) /\
         (param = FB_MIN_SWAP_INTERVAL \/ param = FB_MAX_SWAP_INTERVAL -> r = 1)) /\
      (forall interval, rcFBSetSwapInterval interval w = Returns tt w).
Proof.
  intros param w. unfold rcGetFBParam, bind, getFB, get, ret.
  destruct (theFrameBuffer w) as [f|].
  2: { exists 0. repeat split; auto; discriminate. }
  eexists. split; [reflexivity|].
  pose proof FB_labels_distinct as D.
  repeat (apply NoDup_cons_iff in D; destruct D as [? D]). cbn [In] in *.
  split; [discriminate|]. split; [|split; [|reflexivity]].
  - intros Hnot.
    repeat match goal with
           | |- context [param =? ?c] =>
               destruct (Z.eqb_spec param c); [exfalso; clear - e Hnot; intuition congruence|]
           end.
    reflexivity.
  - intros f0 Hf0. injection Hf0 as <-.
    repeat split; intros Hp;
      repeat match goal with
             | H : _ \/ _ |- _ => destruct H
             end;
      subst param;
      repeat match goal with
             | |- context [?a =? ?c] =>
                 destruct (Z.eqb_spec a c); [try reflexivity; exfalso; intuition congruence|]
             end;
      try reflexivity; try congruence.
Qed.

End RestFacts.

(** ** The goldfish I/O resources *)

Module GoldfishFacts.

Import Goldfish.

Ltac goldfish_numbers :=
  cbv [iomem_base iomem_size irq
       GOLDFISH_BATTERY_IOMEM_BASE GOLDFISH_BATTERY_IOMEM_SIZE GOLDFISH_BATTERY_IRQ
       GOLDFISH_EVENTS_IOMEM_BASE GOLDFISH_EVENTS_IOMEM_SIZE GOLDFISH_EVENTS_IRQ
       GOLDFISH_PIPE_IOMEM_BASE GOLDFISH_PIPE_IOMEM_SIZE GOLDFISH_PIPE_IRQ
       GOLDFISH_FB_IOMEM_BASE GOLDFISH_FB_IOMEM_SIZE GOLDFISH_FB_IRQ
       GOLDFISH_AUDIO_IOMEM_BASE GOLDFISH_AUDIO_IOMEM_SIZE GOLDFISH_AUDIO_IRQ
       GOLDFISH_SYNC_IOMEM_BASE GOLDFISH_SYNC_IOMEM_SIZE GOLDFISH_SYNC_IRQ
       GOLDFISH_RTC_IOMEM_BASE GOLDFISH_RTC_IOMEM_SIZE GOLDFISH_RTC_IRQ
       GOLDFISH_ROTARY_IOMEM_BASE GOLDFISH_ROTARY_IOMEM_SIZE GOLDFISH_ROTARY_IRQ
       GOLDFISH_FBEXT_IOMEM_BASE GOLDFISH_FBEXT_IOMEM_SIZE GOLDFISH_FBEXT_IRQ] in *.

(** X17.  Every I/O memory window of the goldfish devices is non-empty,
    starts at 0xff001000 or above, as the header says, and ends within the
    32-bit address space; the windows are pairwise disjoint, one ending
    before the other starts, so an address decodes to at most one
    device. *)
Theorem iomem_windows_disjoint :
  (forall d : Device,
      0 < iomem_size d /\
      0xff001000 <= iomem_base d /\
      iomem_base d + iomem_size d <= 0x100000000) /\
  (forall d e : Device,
      d = e \/
      iomem_base d + iomem_size d <= iomem_base e \/
      iomem_base e + iomem_size e <= iomem_base d) /\
  (forall (d e : Device) (a : Z),
      decodes d a = true -> decodes e a = true -> d = e).
Proof.
  split; [|split].
  - intros d. destruct d; goldfish_numbers; lia.
  - intros d e.
    destruct d, e; goldfish_numbers;
      first [left; reflexivity | right; left; lia | right; right; lia].
  - intros d e a Hd He. unfold decodes in *.
    apply andb_true_iff in Hd. apply andb_true_iff in He.
    destruct Hd as [Hd1 Hd2], He as [He1 He2].
    apply Z.leb_le in Hd1, He1. apply Z.ltb_lt in Hd2, He2.
    destruct d, e; goldfish_numbers; try reflexivity; lia.
Qed.


End GoldfishFacts.

(** ** The trivial context and the configurations *)

Section FallbackFacts.

Context {P : Platform}.

(** X19.  When [create_trivial_context] returns a context, the backend had
    configuration 0, the context was created for that configuration as a
    GLES2 context sharing nothing, a 1x1 pbuffer surface was created for
    the same configuration after it, and the context was made current with
    that surface for drawing and for reading; only the host driver
    changed.  It never waits for the gate. *)
Theorem create_trivial_context_binds :
  forall (w w' : World) (c : RenderContext),
    create_trivial_context w = Returns c w' ->
    exists (f : FrameBuffer) (cfg : FbConfig) (h1 h2 : HostGL) (surf : EGLSurface)
           (ok : bool),
      theFrameBuffer w = Some f /\
      getConfig f 0 = Some cfg /\
      RenderContext_create (host w) (getDisplay f) (getEglConfig cfg) EGL_NO_CONTEXT true
        = (Some c, h1) /\
      eglCreatePbufferSurface h1 (getDisplay f) (getEglConfig cfg)
        [EGL_WIDTH; 1; EGL_HEIGHT; 1; EGL_NONE] = (surf, h2) /\
      eglMakeCurrent h2 (getDisplay f) surf surf (getEGLContext c) = (ok, host w') /\
      theFrameBuffer w' = theFrameBuffer w /\
      tInfo w' = tInfo w /\
      same_gate w w'.
Proof.
  intros w w' c. rewrite create_trivial_context_outcome. unfold trivial_context_bound.
  destruct (theFrameBuffer w) as [f|] eqn:Hf; [|discriminate].
  destruct (getConfig f 0) as [cfg|] eqn:Hcfg; [|discriminate].
  cbv zeta.
  destruct (RenderContext_create (host w) (getDisplay f) (getEglConfig cfg)
              EGL_NO_CONTEXT true) as [cxt h1] eqn:Hc.
  cbn [fst snd].
  destruct (eglCreatePbufferSurface h1 (getDisplay f) (getEglConfig cfg) pbuf_attribs)
    as [surf h2] eqn:Hs.
  cbn [fst snd].
  destruct cxt as [c0|]; [|discriminate].
  destruct (eglMakeCurrent h2 (getDisplay f) surf surf (getEGLContext c0))
    as [ok h3] eqn:Hm.
  cbn [snd]. intros H. injection H as <- <-.
  exists f, cfg, h1, h2, surf, ok. unfold same_gate. cbn. repeat split; auto.
Qed.

(** X20.  With a backend, [rcGetNumConfigs] and [rcGetConfigs] return what
    its configuration list packs and leave the world as it is; the
    attribute count is stored only through a non-null pointer, as a
    [uint32_t], and the capacity handed to the backend is a [uint32_t]
    too. *)
Theorem configs_with_backend :
  forall (p_numAttribs buffer : bool) (bufSize : Z) (w : World) (f : FrameBuffer),
    theFrameBuffer w = Some f ->
    (exists written,
        rcGetNumConfigs p_numAttribs w = Returns (fst (getPackInfo f), written) w /\
        (p_numAttribs = false -> written = None) /\
        (p_numAttribs = true ->
         exists v, written = Some v /\ 0 <= v < 4294967296 /\
                   v = snd (getPackInfo f) mod 4294967296)) /\
    (exists capacity,
        rcGetConfigs bufSize buffer w = Returns (packConfigs f capacity buffer) w /\
        0 <= capacity < 4294967296 /\ capacity = bufSize mod 4294967296).
Proof.
  intros p_numAttribs buffer bufSize w f Hf. split.
  - rewrite (rcGetNumConfigs_present _ _ _ Hf). eexists. split; [reflexivity|].
    destruct p_numAttribs; split; try discriminate; try reflexivity.
    intros _. eexists. split; [reflexivity|]. unfold to_uint32.
    split; [apply Z.mod_pos_bound; lia | reflexivity].
  - unfold rcGetConfigs, bind, getFB, get. rewrite Hf. cbn.
    eexists. split; [reflexivity|]. unfold to_uint32.
    split; [apply Z.mod_pos_bound; lia | reflexivity].
Qed.

(** X21.  On a thread with a bound context, [rcGetGLString] takes the string
    from the GLES2 driver when the context is a GLES2 context and from the
    GLES1 driver otherwise.  Unless the checksum token is to be appended,
    a non-null buffer that is large enough receives that string and its
    terminator, counted by the result; when the driver has no such string
    the result is 0 and the buffer receives an empty terminated string. *)
Theorem rcGetGLString_by_context_kind :
  forall (name bufferSize : Z) (mem : list byte) (w : World) (ctx : RenderContext),
    let str := if isGL2 ctx then gles2_glGetString (host w) name
               else gles1_glGetString (host w) name in
    tInfo w = Some {| currContext := Some ctx |} ->
    feature_GLPipeChecksum w && (name =? GL_EXTENSIONS) = false ->
    strlen (text_of str) + 1 <= bufferSize <= INT_MAX ->
    rcGetGLString name (Some mem) bufferSize w =
      match str with
      | Some s => Returns (strlen s + 1, strcpy s) w
      | None => Returns (0, [NUL]) w
      end.
Proof.
  intros name bufferSize mem w ctx str Ht Hext Hsize.
  destruct (rcGetGLString_bound_outcome name (Some mem) bufferSize w ctx Ht) as [Hq _].
  fold str in Hq.
  rewrite (rcGetGLString_after_query _ (Some mem) _ _ _ _ _ Hq).
  cbv zeta. rewrite Hext. cbn [is_null orb].
  pose proof (strlen_nonneg (text_of str)) as Hd.
  destruct str as [s|]; cbn [text_of counted] in *.
  - rewrite to_int_small by (unfold INT_MIN, INT_MAX in *; lia).
    destruct (Z.gtb_spec (strlen s + 1) bufferSize); [lia | reflexivity].
  - destruct (Z.gtb_spec 0 bufferSize); [lia|].
    destruct (Z.geb_spec bufferSize 1); [reflexivity | lia].
Qed.

End FallbackFacts.

(** ** Runs on the concrete platform *)

Module ToyRuns.

Import Toy.
Import String.StringSyntax.
#[local] Existing Instance Toy.platform.

Lemma toy_driver_strings_fit : @driver_strings_fit Toy.platform.
Proof.
  split; [vm_compute; discriminate|].
  intros h name s Hs.
  assert (H : Toy.glGetString h name = Some s) by (destruct Hs; assumption).
  unfold Toy.glGetString in H.
  destruct (name =? GL_EXTENSIONS); [injection H as <-; vm_compute; discriminate|].
  destruct (name =? GL_VENDOR); [injection H as <-; vm_compute; discriminate|].
  discriminate.
Qed.

(** The flush that fails in the backend also comes back with the gate
    held: surface 0 cannot be flushed by this backend. *)
Example flush_failure_keeps_gate :
  exists w', rcFlushWindowColorBuffer 0 (world (Some backend0) true false) = Returns (-1) w'
             /\ gate_held w' = true.
Proof. eexists. split; reflexivity. Qed.

(** A flush that succeeds releases it. *)
Example flush_success_releases_gate :
  exists w', rcFlushWindowColorBuffer 5 (world (Some backend0) true false) = Returns 0 w'
             /\ gate_held w' = false.
Proof. eexists. split; reflexivity. Qed.

(** With a backend, the update releases what the cache flush took. *)
Example lock_update_unlock :
  exists w1 w2,
    rcColorBufferCacheFlush 9 0 0 (world (Some backend0) true false) = Returns 0 w1
    /\ gate_held w1 = true
    /\ rcUpdateColorBuffer 9 0 0 1 1 6408 5121 [x00; x00; x00; x00] w1 = Returns 0 w2
    /\ gate_held w2 = false.
Proof. do 2 eexists. repeat split. Qed.

(** A second cache flush before the update waits for the gate. *)
Example second_lock_waits :
  exists w1,
    rcColorBufferCacheFlush 9 0 0 (world (Some backend0) true false) = Returns 0 w1
    /\ rcColorBufferCacheFlush 9 0 0 w1 = Waits w1.
Proof. eexists. split; reflexivity. Qed.

Example create_context_kinds :
  rcCreateContext 7 0 2 (world (Some backend0) false false)
    = Returns 2 (set_theFrameBuffer (Some (serve backend0)) (world (Some backend0) false false))
  /\ rcCreateContext 7 0 3 (world (Some backend0) false false)
    = Returns 2 (set_theFrameBuffer (Some (serve backend0)) (world (Some backend0) false false))
  /\ rcCreateContext 7 0 1 (world (Some backend0) false false)
    = Returns 1 (set_theFrameBuffer (Some (serve backend0)) (world (Some backend0) false false))
  /\ rcCreateContext 7 0 2 (world None false false) = Returns 0 (world None false false).
Proof. repeat split. Qed.

(** Without a [RenderThreadInfo] the trivial context is created and bound
    in the driver, and then the store through [tInfo] faults. *)
Example get_string_null_tInfo :
  exists w', rcGetGLString GL_VENDOR (Some []) 16 (world_no_tInfo (Some backend0))
             = NullDeref w'
             /\ current (host w') = Some 1 /\ tInfo w' = None.
Proof. eexists. repeat split. Qed.

(** With a backend the fallback binds a GLES2 context to the thread. *)
Example get_string_fallback_binds :
  rcGetGLString GL_VENDOR (Some []) 16 (world (Some backend0) false false)
    = Returns (4, strcpy (text "Toy")) (world_bound (Some backend0) false false).
Proof. reflexivity. Qed.

(** Without the checksum feature the extension string is the driver's own,
    and the protocol token does not occur in it. *)
Example get_extensions_without_checksum :
  rcGetGLString GL_EXTENSIONS (Some []) 64 (world (Some backend0) false false)
    = Returns (18, strcpy (text "GL_OES_EGL_image "))
        (world_bound (Some backend0) false false)
  /\ strstr (text "GL_OES_EGL_image ") getMaxVersionString = false.
Proof. split; reflexivity. Qed.

(** With it, the token and a space follow the driver's string. *)
Example get_extensions_with_checksum :
  rcGetGLString GL_EXTENSIONS (Some []) 64 (world (Some backend0) false true)
    = Returns (49, strcpy (text "GL_OES_EGL_image ANDROID_EMU_CHECKSUM_HELPER_v1 "))
        (world_bound (Some backend0) false true)
  /\ strstr (text "GL_OES_EGL_image ANDROID_EMU_CHECKSUM_HELPER_v1 ")
        getMaxVersionString = true.
Proof. split; reflexivity. Qed.

(** C4 (counterexample).  Without a backend the query returns 0 and stores
    nothing: a buffer that held the bytes of "AB" still holds them, and
    not an empty terminated string. *)
Lemma rcQueryEGLString_zero_stores_nothing :
  let w := world None false false in
  let mem := text "AB" in
  rcQueryEGLString EGL_VENDOR (Some mem) 2 w = Returns (0, []) w /\
  buffer_after [] mem = text "AB" /\
  is_prefix [NUL] (buffer_after [] mem) = false.
Proof. repeat split. Qed.

(** The convention of C4 on the vendor string, with a buffer that is too
    small and with one that fits. *)
Lemma rcQueryEGLString_convention_witness :
  let w := world (Some backend0) false false in
  rcQueryEGLString EGL_VENDOR (Some []) 3 w = Returns (-4, []) w /\
  rcQueryEGLString EGL_VENDOR (Some []) 4 w = Returns (4, strcpy (text "Toy")) w.
Proof.
  intros w.
  assert (Hfit : forall s, eglString EGL_VENDOR w = Some s -> strlen s + 1 <= INT_MAX).
  { intros s Hs. vm_compute in Hs. injection Hs as <-. vm_compute. discriminate. }
  split.
  - exact (proj2 (proj2 (proj1
             (rcQueryEGLString_convention EGL_VENDOR (Some []) 3 w Hfit)))).
  - exact (proj2 (proj2 (proj1
             (rcQueryEGLString_convention EGL_VENDOR (Some []) 4 w Hfit)))).
Defined.

(** X22 on the toy driver: a 64-byte buffer takes the 49 bytes of the
    extension string with the token, and a 20-byte buffer takes nothing. *)
Lemma rcGetGLString_write_bounded_witness :
  (strlen (strcpy (text "GL_OES_EGL_image ANDROID_EMU_CHECKSUM_HELPER_v1 "))
     <= Z.max 0 64 /\
   (strcpy (text "GL_OES_EGL_image ANDROID_EMU_CHECKSUM_HELPER_v1 ") <> [] ->
    is_null (Some (@nil byte)) = false)) /\
  (strlen [] <= Z.max 0 20 /\
   (@nil byte <> [] -> is_null (Some (@nil byte)) = false)).
Proof.
  split.
  - apply (rcGetGLString_write_bounded GL_EXTENSIONS (Some []) 64 49
             (strcpy (text "GL_OES_EGL_image ANDROID_EMU_CHECKSUM_HELPER_v1 "))
             (world (Some backend0) false true)
             (world_bound (Some backend0) false true)).
    + exact toy_driver_strings_fit.
    + reflexivity.
  - apply (rcGetGLString_write_bounded GL_EXTENSIONS (Some []) 20 (-49) []
             (world (Some backend0) false true)
             (world_bound (Some backend0) false true)).
    + exact toy_driver_strings_fit.
    + reflexivity.
Defined.

End ToyRuns.

(** ** More runs on the concrete platform *)

Module MoreRuns.

Import Toy.
Import String.StringSyntax.
#[local] Existing Instance Toy.platform.
#[local] Existing Instance ToyRest.rest.

(** X1 on the toy backend: lock, update, unlock. *)
Lemma cache_flush_then_update_releases_witness :
  exists w1 w2 : World,
    rcColorBufferCacheFlush 9 0 0 (world (Some backend0) true false) = Returns 0 w1 /\
    rcUpdateColorBuffer 9 0 0 1 1 6408 5121 [x00; x00; x00; x00] w1 = Returns 0 w2 /\
    gate_held w1 = true /\
    gate_held w2 = false /\
    theFrameBuffer w2 = Some (serve backend0).
Proof.
  destruct (cache_flush_then_update_releases 9 0 0 0 0 1 1 6408 5121
              [x00; x00; x00; x00] (world (Some backend0) true false) backend0
              eq_refl eq_refl)
    as (w1 & w2 & H1 & H2 & H3 & H4 & _ & H6 & _).
  exists w1, w2. repeat split; assumption.
Defined.


(** X3 on the toy backend: after the cache flush a window flush waits. *)
Lemma held_gate_makes_takers_wait_witness :
  let w1 := gate_taken (world (Some backend0) true false) in
  rcFlushWindowColorBuffer 5 w1 = Waits w1.
Proof.
  intros w1.
  exact (proj1 (proj2 (held_gate_makes_takers_wait 9 0 0
                         (world (Some backend0) true false) w1 eq_refl eq_refl)) 5).
Defined.

(** X4 on the toy backend with the feature off. *)
Lemma disabled_gate_never_waits_witness :
  exists r w',
    rcFlushWindowColorBuffer 5 (world (Some backend0) false false) = Returns r w'
    /\ gate_held w' = false /\ gate_enabled w' = false.
Proof.
  exact (proj1 (proj2 (disabled_gate_never_waits
                         (world (Some backend0) false false) eq_refl)) 5).
Defined.

(** X6 on a gate that was constructed enabled: switching the feature off
    afterwards does not keep the cache flush from taking the gate. *)
Lemma gate_flag_read_once_witness :
  let w := gate_released (world (Some backend0) true false) in
  rcColorBufferCacheFlush 9 0 0 (with_feature_GrallocSync false w)
    = Returns 0 (with_feature_GrallocSync false (gate_taken w)) /\
  gate_held (with_feature_GrallocSync false (gate_taken w)) = true.
Proof.
  intros w. split; [|reflexivity].
  exact (proj1 (gate_flag_read_once false
                  {| mEnabled := true; mGrallocCbLock := Free |} w eq_refl) 9 0 0).
Defined.


(** X9 on the toy driver: the first query binds the trivial context. *)
Lemma rcGetGLString_leaves_context_bound_witness :
  exists ctx,
    tInfo (world_bound (Some backend0) false false) = Some {| currContext := Some ctx |} /\
    (forall (name' : Z) (buffer' : option (list byte)) (bufferSize' : Z),
        exists x', rcGetGLString name' buffer' bufferSize'
                     (world_bound (Some backend0) false false)
                   = Returns x' (world_bound (Some backend0) false false)).
Proof.
  exact (rcGetGLString_leaves_context_bound GL_VENDOR (Some []) 16
           (4, strcpy (text "Toy"))
           (world (Some backend0) false false)
           (world_bound (Some backend0) false false) eq_refl).
Defined.





(** X17 at the battery: its window, and its first byte, which no other
    device decodes. *)
Lemma iomem_windows_disjoint_witness :
  (0 < Goldfish.iomem_size Goldfish.BATTERY /\
   0xff001000 <= Goldfish.iomem_base Goldfish.BATTERY /\
   Goldfish.iomem_base Goldfish.BATTERY + Goldfish.iomem_size Goldfish.BATTERY
     <= 0x100000000) /\
  (forall e : Goldfish.Device,
      Goldfish.decodes e 0xff010000 = true -> Goldfish.BATTERY = e).
Proof.
  split.
  - exact (proj1 GoldfishFacts.iomem_windows_disjoint Goldfish.BATTERY).
  - exact (fun e => proj2 (proj2 GoldfishFacts.iomem_windows_disjoint)
                      Goldfish.BATTERY e 0xff010000 eq_refl).
Defined.

(** X19 on the toy driver: the context made for configuration 0. *)
Lemma create_trivial_context_binds_witness :
  exists (f : Backend) (cfg : FbConfig) (h1 h2 : Driver) (surf : EGLSurface) (ok : bool),
    theFrameBuffer (world (Some backend0) false false) = Some f /\
    getConfig f 0 = Some cfg /\
    RenderContext_create driver0 (getDisplay f) (getEglConfig cfg) EGL_NO_CONTEXT true
      = (Some context1, h1) /\
    eglCreatePbufferSurface h1 (getDisplay f) (getEglConfig cfg)
      [EGL_WIDTH; 1; EGL_HEIGHT; 1; EGL_NONE] = (surf, h2) /\
    eglMakeCurrent h2 (getDisplay f) surf surf (getEGLContext context1)
      = (ok, {| current := Some 1; contexts := 1; surfaces := 1 |}).
Proof.
  destruct (create_trivial_context_binds (world (Some backend0) false false)
              (@set_host Toy.platform
                 {| current := Some 1; contexts := 1; surfaces := 1 |}
                 (world (Some backend0) false false))
              context1 eq_refl)
    as (f & cfg & h1 & h2 & surf & ok & H1 & H2 & H3 & H4 & H5 & _).
  exists f, cfg, h1, h2, surf, ok. repeat split; assumption.
Defined.

(** X20 on the toy backend: one configuration of three attributes. *)
Lemma configs_with_backend_witness :
  (exists written,
      rcGetNumConfigs true (world (Some backend0) false false)
        = Returns (1, written) (world (Some backend0) false false) /\
      (true = false -> written = None) /\
      (true = true ->
       exists v, written = Some v /\ 0 <= v < 4294967296 /\ v = 3 mod 4294967296)) /\
  (exists capacity,
      rcGetConfigs 12 true (world (Some backend0) false false)
        = Returns (packConfigs backend0 capacity true) (world (Some backend0) false false) /\
      0 <= capacity < 4294967296 /\ capacity = 12 mod 4294967296).
Proof.
  exact (configs_with_backend true true 12 (world (Some backend0) false false)
           backend0 eq_refl).
Defined.

Lemma sixteen_fits : strlen (text "Toy") + 1 <= 16 <= INT_MAX.
Proof. vm_compute. split; discriminate. Qed.

(** X21 on the toy driver: the vendor string through the bound GLES2
    context. *)
Lemma rcGetGLString_by_context_kind_witness :
  rcGetGLString GL_VENDOR (Some []) 16 (world_bound (Some backend0) false false)
    = Returns (strlen (text "Toy") + 1, strcpy (text "Toy"))
        (world_bound (Some backend0) false false).
Proof.
  exact (rcGetGLString_by_context_kind GL_VENDOR 16 []
           (world_bound (Some backend0) false false) context1
           eq_refl eq_refl sixteen_fits).
Defined.

(** The guarded operations on the toy backend. *)
Example make_current_binds :
  exists w',
    rcMakeCurrent 3 1 1 (world (Some backend0) false false) = Returns EGL_TRUE w'
    /\ tInfo w' = Some {| currContext := Some {| getEGLContext := 3; isGL2 := true |} |}
    /\ rcMakeCurrent 0 1 1 w' = Returns EGL_FALSE
                                  (set_theFrameBuffer (Some (serve (serve backend0))) w').
Proof. eexists. repeat split. Qed.

Example egl_version :
  rcGetEGLVersion true true (world (Some backend0) false false)
    = Returns (EGL_TRUE, Some 1, Some 4) (world (Some backend0) false false)
  /\ rcGetEGLVersion true true (world None false false)
    = Returns (EGL_FALSE, None, None) (world None false false)
  /\ rcGetEGLVersion false true (world (Some backend0) false false)
    = NullDeref (world (Some backend0) false false).
Proof. repeat split. Qed.

Example fb_params :
  rcGetFBParam FB_WIDTH (world (Some backend0) false false)
    = Returns 320 (world (Some backend0) false false)
  /\ rcGetFBParam FB_FPS (world (Some backend0) false false)
    = Returns 60 (world (Some backend0) false false)
  /\ rcGetFBParam 99 (world (Some backend0) false false)
    = Returns 0 (world (Some backend0) false false).
Proof. repeat split. Qed.

End MoreRuns.

(** ** Runs on hosts that report a given extension string *)

Module ExtensionRuns.

Import Toy.
Import String.StringSyntax.



(** C10 (defect).  [rcGetGLString] is meant never to store more than
    [bufferSize] bytes.  For a driver string of 2^31 - 1 bytes the count
    [int len = strlen(str) + 1] wraps around to -2^31, the test
    [len > bufferSize] lets it through, and [strcpy] stores 2^31 bytes
    through a buffer given as 16 bytes. *)
Theorem rcGetGLString_overruns_on_long_string :
  let s := repeat x41 (Z.to_nat 2147483647) in
  let w := Reported.world (Some s) false in
  rcGetGLString GL_EXTENSIONS (Some []) 16 w = Returns (-2147483648, strcpy s) w /\
  strlen (strcpy s) = 2147483648 /\
  16 < strlen (strcpy s).
Proof.
  intros s w.
  assert (Hs : strlen s = INT_MAX).
  { unfold strlen, s. rewrite repeat_length. apply Z2Nat.id. discriminate. }
  assert (Hsize : INT_MIN <= 16) by discriminate.
  split; [|split].
  - exact (rcGetGLString_long_string GL_EXTENSIONS 16 [] w
             {| getEGLContext := 1; isGL2 := true |} s eq_refl eq_refl Hs eq_refl Hsize).
  - rewrite strlen_strcpy, Hs. reflexivity.
  - rewrite strlen_strcpy, Hs. reflexivity.
Qed.

(** X23 on the toy driver: the 49 bytes stored fit the 64 given. *)
Lemma rcGetGLString_checksum_fill_bounded_witness :
  strlen (strcpy (text "GL_OES_EGL_image ANDROID_EMU_CHECKSUM_HELPER_v1 ")) <= 64.
Proof.
  assert (Hsize : 0 <= 64) by discriminate.
  exact (rcGetGLString_checksum_fill_bounded (Some []) 64 49
           (strcpy (text "GL_OES_EGL_image ANDROID_EMU_CHECKSUM_HELPER_v1 "))
           (world (Some backend0) false true)
           (world_bound (Some backend0) false true)
           Hsize eq_refl eq_refl).
Defined.

End ExtensionRuns.
